(** * EDIFACT CODECO codec: shallow embedding and properties

    Embedding of the EDIFACT CODECO encoders and decoder of the container
    EDI API:
    - [src/EDI API/EDI-CODECO-Generator-API-master/services/edi_parser.py]
      (segment model, decoder, validator, EDI to XML field mapper);
    - [src/EDI API/services/edi_converter.py] (descriptive-profile encoder);
    - [src/EDI API/services/xml_generator.py] (request record to XML tree);
    - [src/api/edi/codeco_generator_simple.py] (compact-profile encoder).

    Python strings are modelled as [string] (one [ascii] per code point,
    ASCII range), Python [int] as [Z], dictionaries with string values as
    association lists, and exceptions as the [Err] case of [result]. *)

From Stdlib Require Import ZArith List Bool Ascii String Lia.
Import ListNotations.
Open Scope list_scope.
Open Scope string_scope.
Open Scope nat_scope.

(* ------------------------------------------------------------------ *)
(** ** Python string primitives *)

Module Py.

(** Characters matched by [\s] in a [str] regex and removed by
    [str.strip()], restricted to ASCII: 9..13, 28..31 and 32. *)
Definition is_ws (c : ascii) : bool :=
  let n := nat_of_ascii c in
  (((9 <=? n) && (n <=? 13)) || ((28 <=? n) && (n <=? 32)))%nat.

Definition is_digit (c : ascii) : bool :=
  let n := nat_of_ascii c in (48 <=? n) && (n <=? 57).

Definition ascii_eqb (a b : ascii) : bool := Ascii.eqb a b.

(** [str.lstrip()] *)
Fixpoint lstrip (s : string) : string :=
  match s with
  | EmptyString => EmptyString
  | String c r => if is_ws c then lstrip r else s
  end.

(** [str.rstrip()]: a character survives unless it is whitespace and
    everything after it is stripped away. *)
Fixpoint rstrip (s : string) : string :=
  match s with
  | EmptyString => EmptyString
  | String c r =>
      let r' := rstrip r in
      match r' with
      | EmptyString => if is_ws c then EmptyString else String c EmptyString
      | _ => String c r'
      end
  end.

(** [str.strip()] *)
Definition strip (s : string) : string := rstrip (lstrip s).

(** [s.split(d)] for a one-character separator [d]. *)
Fixpoint split_on (d : ascii) (s : string) : list string :=
  match s with
  | EmptyString => [EmptyString]
  | String c r =>
      if ascii_eqb c d then EmptyString :: split_on d r
      else match split_on d r with
           | [] => [String c EmptyString]
           | h :: t => String c h :: t
           end
  end.

(** [sub in s] *)
Fixpoint contains (sub s : string) : bool :=
  match s with
  | EmptyString => String.eqb sub EmptyString
  | String _ r => String.prefix sub s || contains sub r
  end.

(** [s.count(sub)] for a non-empty [sub]: non-overlapping occurrences,
    scanned from the left. *)
Fixpoint count_fuel (fuel : nat) (sub s : string) : nat :=
  match fuel with
  | O => O
  | S f =>
      match s with
      | EmptyString => O
      | String _ r =>
          if String.prefix sub s
          then S (count_fuel f sub (substring (String.length sub)
                                       (String.length s) s))
          else count_fuel f sub r
      end
  end.

Definition count (sub s : string) : nat :=
  count_fuel (S (String.length s)) sub s.

(** [s.replace(old, new)] for a non-empty [old]. *)
Fixpoint replace_fuel (fuel : nat) (old new s : string) : string :=
  match fuel with
  | O => s
  | S f =>
      match s with
      | EmptyString => EmptyString
      | String c r =>
          if String.prefix old s
          then new ++ replace_fuel f old new
                        (substring (String.length old) (String.length s) s)
          else String c (replace_fuel f old new r)
      end
  end.

Definition replace (old new s : string) : string :=
  replace_fuel (S (String.length s)) old new s.

Definition upper_char (c : ascii) : ascii :=
  let n := nat_of_ascii c in
  if (97 <=? n) && (n <=? 122) then ascii_of_nat (n - 32) else c.

Definition lower_char (c : ascii) : ascii :=
  let n := nat_of_ascii c in
  if (65 <=? n) && (n <=? 90) then ascii_of_nat (n + 32) else c.

Fixpoint map_chars (f : ascii -> ascii) (s : string) : string :=
  match s with
  | EmptyString => EmptyString
  | String c r => String (f c) (map_chars f r)
  end.

(** [str.upper()] and [str.lower()] on ASCII text (characters below 128),
    where Python maps exactly a-z and A-Z; its Unicode case mapping of
    other characters is not modelled. *)
Definition upper (s : string) : string := map_chars upper_char s.
Definition lower (s : string) : string := map_chars lower_char s.

(** Truthiness of a string. *)
Definition truthy (s : string) : bool :=
  negb (String.eqb s EmptyString).

(** [str(n)] for an integer. *)
Fixpoint digits_rev (fuel : nat) (n : nat) : string :=
  match fuel with
  | O => EmptyString
  | S f =>
      let d := String (ascii_of_nat (48 + n mod 10)) EmptyString in
      if n <? 10 then d else digits_rev f (n / 10) ++ d
  end.

Definition str_nat (n : nat) : string := digits_rev (S n) n.

(** [int(s)] for a string of ASCII digits. *)
Fixpoint int_of_digits_acc (acc : nat) (s : string) : nat :=
  match s with
  | EmptyString => acc
  | String c r => int_of_digits_acc (acc * 10 + (nat_of_ascii c - 48)) r
  end.

Definition int_of_digits (s : string) : nat := int_of_digits_acc 0 s.

(** ['%02d' % n] *)
Definition pad2 (n : nat) : string :=
  if n <? 10 then "0" ++ str_nat n else str_nat n.

(** Dictionaries with string keys and string values. *)
Definition dict := list (string * string).

Fixpoint dict_get (d : dict) (k : string) : option string :=
  match d with
  | [] => None
  | (k', v) :: r => if String.eqb k k' then Some v else dict_get r k
  end.

(** [d.get(k, default)] *)
Definition get (d : dict) (k default : string) : string :=
  match dict_get d k with Some v => v | None => default end.

(** [d[k] = v]: an existing key keeps its position. *)
Fixpoint dict_set (d : dict) (k v : string) : dict :=
  match d with
  | [] => [(k, v)]
  | (k', v') :: r =>
      if String.eqb k k' then (k', v) :: r else (k', v') :: dict_set r k v
  end.

(** [d.update(e)] *)
Definition dict_update (d e : dict) : dict :=
  fold_left (fun acc kv => dict_set acc (fst kv) (snd kv)) e d.

End Py.

(* ------------------------------------------------------------------ *)
(** ** Exceptions *)

Inductive exn : Type :=
| ValueError (msg : string)
| IndexError (msg : string)
| Exception (msg : string).

Inductive result (A : Type) : Type :=
| Ok (a : A)
| Err (e : exn).
Arguments Ok {A} a.
Arguments Err {A} e.

Definition bind {A B} (m : result A) (k : A -> result B) : result B :=
  match m with Ok a => k a | Err e => Err e end.

Notation "'let*' x := m 'in' k" := (bind m (fun x => k))
  (at level 200, x name, m at level 100, k at level 200).

(* ------------------------------------------------------------------ *)
(** ** Segment model ([EDIFACTSegment]) *)

Module Segment.

Record EDIFACTSegment : Type := mkSegment {
  tag : string;
  elements : list string
}.

(** Python list subscript [xs[i]], negative indices counting from the
    end, [IndexError] outside [-len(xs) .. len(xs)-1]. *)
Definition py_index {A} (xs : list A) (i : Z) : result A :=
  let n := Z.of_nat (List.length xs) in
  let j := if (i <? 0)%Z then (n + i)%Z else i in
  if ((0 <=? j) && (j <? n))%Z then
    match nth_error xs (Z.to_nat j) with
    | Some x => Ok x
    | None => Err (IndexError "list index out of range")
    end
  else Err (IndexError "list index out of range").

(** [get_element(index, default)] *)
Definition get_element (seg : EDIFACTSegment) (index : Z) (default : string)
  : result string :=
  if (index <? Z.of_nat (List.length (elements seg)))%Z
  then py_index (elements seg) index
  else Ok default.

(** [get_composite(element_index, component_index, default)] *)
Definition get_composite (seg : EDIFACTSegment) (element_index component_index : Z)
  (default : string) : result string :=
  let* element := get_element seg element_index "" in
  let components := if Py.truthy element then Py.split_on ":" element else [] in
  if (component_index <? Z.of_nat (List.length components))%Z
  then py_index components component_index
  else Ok default.

End Segment.

(* ------------------------------------------------------------------ *)
(** ** Decoder ([EDIFACTParser]) *)

Module Parser.
Import Segment.

(** [re.sub(r'\s+', ' ', s)]: every maximal run of whitespace becomes one
    space; [in_run] records that the previous character was whitespace. *)
Fixpoint collapse_ws (in_run : bool) (s : string) : string :=
  match s with
  | EmptyString => EmptyString
  | String c r =>
      if Py.is_ws c then
        if in_run then collapse_ws true r else String " " (collapse_ws true r)
      else String c (collapse_ws false r)
  end.

(** [re.sub(r"\s*'\s*", "'", s)]: the whitespace run right before a
    quote and the one right after it are dropped.  [pend] buffers the
    current whitespace run (kept unless a quote follows); [after_quote]
    is set while skipping the run after a quote. *)
Fixpoint squeeze_quotes (after_quote : bool) (pend : string) (s : string) : string :=
  match s with
  | EmptyString => pend
  | String c r =>
      if Py.is_ws c then
        if after_quote then squeeze_quotes true EmptyString r
        else squeeze_quotes false (pend ++ String c EmptyString) r
      else if Py.ascii_eqb c "'" then String "'" (squeeze_quotes true EmptyString r)
      else pend ++ String c (squeeze_quotes false EmptyString r)
  end.

(** [_normalize_edi_content] *)
Definition normalize_edi_content (content : string) : string :=
  let normalized := collapse_ws false (Py.strip content) in
  squeeze_quotes false EmptyString normalized.

(** One iteration of the loop of [_split_into_segments]. *)
Definition segment_of_raw (raw_segment : string) : option EDIFACTSegment :=
  let raw_segment := Py.strip raw_segment in
  if negb (Py.truthy raw_segment) then None
  else
    match Py.split_on "+" raw_segment with
    | [] => None
    | p0 :: rest =>
        let tag := Py.strip p0 in
        let elements := map Py.strip rest in
        if Py.truthy tag then Some (mkSegment tag elements) else None
    end.

(** [_split_into_segments] *)
Definition split_into_segments (content : string) : list EDIFACTSegment :=
  let raw_segments := Py.split_on "'" content in
  fold_right (fun raw acc =>
                match segment_of_raw raw with
                | Some seg => seg :: acc
                | None => acc
                end) [] raw_segments.

(** The grouped result of [_parse_segments]. *)
Record ParsedMessage : Type := mkParsed {
  message_info : Py.dict;
  header : Py.dict;
  container_details : Py.dict;
  parties : list Py.dict;
  locations : list Py.dict;
  measurements : list Py.dict;
  dates : list Py.dict
}.

Definition empty_data : ParsedMessage := mkParsed [] [] [] [] [] [] [].

Definition parse_unb_segment (segment : EDIFACTSegment) : result Py.dict :=
  let* a := get_composite segment 0 0 "" in
  let* b := get_composite segment 0 1 "" in
  let* c := get_element segment 1 "" in
  let* d := get_element segment 2 "" in
  let* e := get_element segment 3 "" in
  let* f := get_element segment 4 "" in
  let* g := get_element segment 5 "" in
  Ok [("syntax_identifier", a); ("syntax_version", b); ("sender", c);
      ("receiver", d); ("date", e); ("time", f); ("interchange_control_ref", g)].

Definition parse_unh_segment (segment : EDIFACTSegment) : result Py.dict :=
  let* a := get_element segment 0 "" in
  let* b := get_composite segment 1 0 "" in
  let* c := get_composite segment 1 1 "" in
  let* d := get_composite segment 1 2 "" in
  let* e := get_composite segment 1 3 "" in
  let* f := get_composite segment 1 4 "" in
  Ok [("message_reference_number", a); ("message_type", b);
      ("message_version", c); ("message_release", d);
      ("controlling_agency", e); ("association_assigned_code", f)].

Definition parse_bgm_segment (segment : EDIFACTSegment) : result Py.dict :=
  let* a := get_element segment 0 "" in
  let* b := get_element segment 1 "" in
  let* c := get_element segment 2 "" in
  Ok [("document_name_code", a); ("document_number", b);
      ("message_function_code", c)].

Definition parse_dtm_segment (segment : EDIFACTSegment) : result Py.dict :=
  let* a := get_composite segment 0 0 "" in
  let* b := get_composite segment 0 1 "" in
  let* c := get_composite segment 0 2 "" in
  Ok [("date_time_qualifier", a); ("date_time", b); ("date_time_format", c)].

Definition parse_nad_segment (segment : EDIFACTSegment) : result Py.dict :=
  let* a := get_element segment 0 "" in
  let* b := get_element segment 1 "" in
  let* c := get_element segment 3 "" in
  Ok [("party_qualifier", a); ("party_identification", b);
      ("name_and_address", c)].

Definition parse_cod_segment (segment : EDIFACTSegment) : result Py.dict :=
  let* a := get_element segment 0 "" in
  let* b := get_element segment 1 "" in
  let* c := get_element segment 2 "" in
  Ok [("container_number", a); ("container_size", b); ("container_status", c)].

Definition parse_loc_segment (segment : EDIFACTSegment) : result Py.dict :=
  let* a := get_element segment 0 "" in
  let* b := get_element segment 1 "" in
  Ok [("location_qualifier", a); ("location_identification", b)].

Definition parse_mea_segment (segment : EDIFACTSegment) : result Py.dict :=
  let* a := get_element segment 0 "" in
  let* b := get_element segment 1 "" in
  let* c := get_element segment 2 "" in
  Ok [("measurement_purpose_qualifier", a); ("unit_of_measurement", b);
      ("measurement_value", c)].

Definition parse_unt_segment (segment : EDIFACTSegment) : result Py.dict :=
  let* a := get_element segment 0 "" in
  let* b := get_element segment 1 "" in
  Ok [("segment_count", a); ("message_reference_number_trailer", b)].

Definition parse_unz_segment (segment : EDIFACTSegment) : result Py.dict :=
  let* a := get_element segment 0 "" in
  let* b := get_element segment 1 "" in
  Ok [("interchange_control_count", a); ("interchange_control_ref_trailer", b)].

Definition upd_info (data : ParsedMessage) (d : Py.dict) : ParsedMessage :=
  {| message_info := Py.dict_update (message_info data) d;
     header := header data; container_details := container_details data;
     parties := parties data; locations := locations data;
     measurements := measurements data; dates := dates data |}.

Definition upd_header (data : ParsedMessage) (d : Py.dict) : ParsedMessage :=
  {| message_info := message_info data;
     header := Py.dict_update (header data) d;
     container_details := container_details data;
     parties := parties data; locations := locations data;
     measurements := measurements data; dates := dates data |}.

Definition upd_container (data : ParsedMessage) (d : Py.dict) : ParsedMessage :=
  {| message_info := message_info data; header := header data;
     container_details := Py.dict_update (container_details data) d;
     parties := parties data; locations := locations data;
     measurements := measurements data; dates := dates data |}.

Definition add_party (data : ParsedMessage) (d : Py.dict) : ParsedMessage :=
  {| message_info := message_info data; header := header data;
     container_details := container_details data;
     parties := app (parties data) [d]; locations := locations data;
     measurements := measurements data; dates := dates data |}.

Definition add_location (data : ParsedMessage) (d : Py.dict) : ParsedMessage :=
  {| message_info := message_info data; header := header data;
     container_details := container_details data;
     parties := parties data; locations := app (locations data) [d];
     measurements := measurements data; dates := dates data |}.

Definition add_measurement (data : ParsedMessage) (d : Py.dict) : ParsedMessage :=
  {| message_info := message_info data; header := header data;
     container_details := container_details data;
     parties := parties data; locations := locations data;
     measurements := app (measurements data) [d]; dates := dates data |}.

Definition add_date (data : ParsedMessage) (d : Py.dict) : ParsedMessage :=
  {| message_info := message_info data; header := header data;
     container_details := container_details data;
     parties := parties data; locations := locations data;
     measurements := measurements data; dates := app (dates data) [d] |}.

(** One iteration of the loop of [_parse_segments]: the tag dispatch. *)
Definition parse_segment_step (data : ParsedMessage) (segment : EDIFACTSegment)
  : result ParsedMessage :=
  let t := tag segment in
  if String.eqb t "UNB" then let* d := parse_unb_segment segment in Ok (upd_info data d)
  else if String.eqb t "UNH" then let* d := parse_unh_segment segment in Ok (upd_info data d)
  else if String.eqb t "BGM" then let* d := parse_bgm_segment segment in Ok (upd_header data d)
  else if String.eqb t "DTM" then let* d := parse_dtm_segment segment in Ok (add_date data d)
  else if String.eqb t "NAD" then let* d := parse_nad_segment segment in Ok (add_party data d)
  else if String.eqb t "COD" then let* d := parse_cod_segment segment in Ok (upd_container data d)
  else if String.eqb t "LOC" then let* d := parse_loc_segment segment in Ok (add_location data d)
  else if String.eqb t "MEA" then let* d := parse_mea_segment segment in Ok (add_measurement data d)
  else if String.eqb t "UNT" then let* d := parse_unt_segment segment in Ok (upd_info data d)
  else if String.eqb t "UNZ" then let* d := parse_unz_segment segment in Ok (upd_info data d)
  else Ok data.

Fixpoint parse_segments_from (data : ParsedMessage) (segments : list EDIFACTSegment)
  : result ParsedMessage :=
  match segments with
  | [] => Ok data
  | s :: rest => let* data' := parse_segment_step data s in parse_segments_from data' rest
  end.

(** [_parse_segments] *)
Definition parse_segments (segments : list EDIFACTSegment) : result ParsedMessage :=
  parse_segments_from empty_data segments.

(** [parse_edi_message] *)
Definition parse_edi_message (edi_content : string) : result ParsedMessage :=
  let content := normalize_edi_content edi_content in
  let segments := split_into_segments content in
  match segments with
  | [] => Err (ValueError "No valid EDIFACT segments found in EDI content")
  | _ => parse_segments segments
  end.

(** [validate_edi_format] *)
Definition validate_edi_format (edi_content : string) : bool * list string :=
  if negb (Py.truthy edi_content) || negb (Py.truthy (Py.strip edi_content))
  then (false, ["EDI content is empty"])
  else
    let errors := @nil string in
    let errors := if Py.contains "UNB+" edi_content then errors
                   else app errors ["Missing UNB segment (message envelope)"] in
    let errors := if Py.contains "UNH+" edi_content then errors
                   else app errors ["Missing UNH segment (message header)"] in
    let errors := if Py.contains "UNT+" edi_content then errors
                   else app errors ["Missing UNT segment (message trailer)"] in
    let errors := if Py.contains "UNZ+" edi_content then errors
                   else app errors ["Missing UNZ segment (envelope closing)"] in
    let errors := if Py.contains "CODECO" edi_content then errors
                   else app errors ["Not a CODECO message type"] in
    let errors := if Py.contains "'" edi_content then errors
                   else app errors ["Missing segment terminators (')"] in
    let errors := match parse_edi_message edi_content with
                  | Ok _ => errors
                  | Err (ValueError m) | Err (IndexError m) | Err (Exception m) =>
                      app errors ["Parsing error: " ++ m]
                  end in
    (match errors with [] => true | _ => false end, errors).

End Parser.

(* ------------------------------------------------------------------ *)
(** ** [datetime.strptime] and [strftime] *)

Module Time.

Record datetime : Type := mkDatetime {
  year : nat; month : nat; day : nat; hour : nat; minute : nat; second : nat
}.

(** Character classes of the regular expression that [_strptime] builds
    from a format string. *)
Inductive cclass : Type :=
| CDigit                    (* \d *)
| CRange (lo hi : ascii)    (* [lo-hi] *)
| CChar (c : ascii).        (* a literal character *)

Definition class_ok (k : cclass) (c : ascii) : bool :=
  match k with
  | CDigit => Py.is_digit c
  | CRange lo hi => (nat_of_ascii lo <=? nat_of_ascii c) && (nat_of_ascii c <=? nat_of_ascii hi)
  | CChar x => Py.ascii_eqb x c
  end.

(** One alternative of a group: a fixed sequence of classes. *)
Fixpoint match_alt (a : list cclass) (s : string) : option (string * string) :=
  match a with
  | [] => Some (EmptyString, s)
  | k :: a' =>
      match s with
      | EmptyString => None
      | String c r =>
          if class_ok k c then
            match match_alt a' r with
            | Some (cap, rest) => Some (String c cap, rest)
            | None => None
            end
          else None
      end
  end.

Fixpoint first_some {A B} (f : A -> option B) (l : list A) : option B :=
  match l with
  | [] => None
  | x :: r => match f x with Some y => Some y | None => first_some f r end
  end.

(** [re.match] of a concatenation of groups [(?P<..>alt1|alt2|...)]:
    backtracking tries the alternatives of each group left to right and
    returns the first overall success (captures and unconsumed rest). *)
Fixpoint match_groups (gs : list (list (list cclass))) (s : string)
  : option (list string * string) :=
  match gs with
  | [] => Some ([], s)
  | g :: gs' =>
      first_some (fun a =>
        match match_alt a s with
        | Some (cap, r) =>
            match match_groups gs' r with
            | Some (caps, r') => Some (cap :: caps, r')
            | None => None
            end
        | None => None
        end) g
  end.

(** The directives of [_strptime.TimeRE]. *)
Definition re_Y := [[CDigit; CDigit; CDigit; CDigit]].
Definition re_m := [[CChar "1"; CRange "0" "2"]; [CChar "0"; CRange "1" "9"];
                    [CRange "1" "9"]].
Definition re_d := [[CChar "3"; CRange "0" "1"]; [CRange "1" "2"; CDigit];
                    [CChar "0"; CRange "1" "9"]; [CRange "1" "9"];
                    [CChar " "; CRange "1" "9"]].
Definition re_H := [[CChar "2"; CRange "0" "3"]; [CRange "0" "1"; CDigit]; [CDigit]].
Definition re_M := [[CRange "0" "5"; CDigit]; [CDigit]].
Definition re_S := [[CChar "6"; CRange "0" "1"]; [CRange "0" "5"; CDigit]; [CDigit]].

(** The regular expression of the format ['%Y%m%d%H%M%S']. *)
Definition re_YmdHMS := [re_Y; re_m; re_d; re_H; re_M; re_S].

Definition is_leap (y : nat) : bool :=
  ((y mod 4 =? 0) && negb (y mod 100 =? 0)) || (y mod 400 =? 0).

Definition days_in_month (y m : nat) : nat :=
  match m with
  | 2 => if is_leap y then 29 else 28
  | 4 | 6 | 9 | 11 => 30
  | _ => 31
  end.

Definition int_field (s : string) : nat := Py.int_of_digits (Py.strip s).

(** [datetime.strptime(data_string, '%Y%m%d%H%M%S')]: regex match,
    "unconverted data" check, then the range checks of [date] and
    [datetime]. *)
Definition strptime_YmdHMS (data_string : string) : result datetime :=
  match match_groups re_YmdHMS data_string with
  | None => Err (ValueError ("time data '" ++ data_string
                  ++ "' does not match format '%Y%m%d%H%M%S'"))
  | Some (caps, rest) =>
      if Py.truthy rest then Err (ValueError ("unconverted data remains: " ++ rest))
      else
        match caps with
        | [y; m; d; hh; mi; ss] =>
            let y := int_field y in let m := int_field m in
            let d := int_field d in let hh := int_field hh in
            let mi := int_field mi in let ss := int_field ss in
            if y =? 0 then Err (ValueError "year 0 is out of range")
            else if days_in_month y m <? d then
              Err (ValueError "day is out of range for month")
            else if 59 <? ss then Err (ValueError "second must be in 0..59")
            else Ok (mkDatetime y m d hh mi ss)
        | _ => Err (ValueError "bad directive")
        end
  end.

(** [strftime] directives; [%Y] is the decimal year as the C library
    prints it. *)
Definition fmt_Y (t : datetime) : string := Py.str_nat (year t).
Definition fmt_y (t : datetime) : string := Py.pad2 (year t mod 100).
Definition fmt_m (t : datetime) : string := Py.pad2 (month t).
Definition fmt_d (t : datetime) : string := Py.pad2 (day t).
Definition fmt_H (t : datetime) : string := Py.pad2 (hour t).
Definition fmt_M (t : datetime) : string := Py.pad2 (minute t).
Definition fmt_S (t : datetime) : string := Py.pad2 (second t).

Definition fmt_YmdHMS (t : datetime) : string :=
  fmt_Y t ++ fmt_m t ++ fmt_d t ++ fmt_H t ++ fmt_M t ++ fmt_S t.

End Time.

(* ------------------------------------------------------------------ *)
(** ** XML trees and the descriptive-profile encoder ([edi_converter.py]) *)

Module Descriptive.
Import Time.

(** An element of the [Records] container: its children, each with a
    tag and a text ([None] when the child has no text). *)
Definition element := list (string * option string).

(** The parsed XML document, as seen through [root.find('.//Records/Header')]
    and [root.find('.//Records/Item')]. *)
Record xml_doc : Type := mkDoc {
  doc_header : option element;
  doc_item : option element
}.

(** Input of [convert_xml_to_edi]: [etree.fromstring] either raises
    [XMLSyntaxError] or yields a tree. *)
Inductive xml_source : Type :=
| XmlSyntaxError (msg : string)
| XmlTree (doc : xml_doc).

Fixpoint assoc_child (e : element) (t : string) : option (option string) :=
  match e with
  | [] => None
  | (t', v) :: r => if String.eqb t t' then Some v else assoc_child r t
  end.

(** [elem.findtext(tag)]: [None] when no such child, [''] for a child
    without text. *)
Definition findtext (e : element) (t : string) : option string :=
  match assoc_child e t with
  | None => None
  | Some None => Some ""
  | Some (Some s) => Some s
  end.

(** Interpolation of a [str] or [None] into an f-string. *)
Definition fmt (o : option string) : string :=
  match o with Some s => s | None => "None" end.

Definition truthy_opt (o : option string) : bool :=
  match o with Some s => Py.truthy s | None => false end.

Definition build_unb_segment (sender receiver : string) (timestamp : datetime) : string :=
  let interchange_control_ref := fmt_YmdHMS timestamp in
  "UNB+UNOC:3+" ++ sender ++ "+" ++ receiver ++ "+"
    ++ (fmt_y timestamp ++ fmt_m timestamp ++ fmt_d timestamp) ++ "+"
    ++ (fmt_H timestamp ++ fmt_M timestamp) ++ "+" ++ interchange_control_ref ++ "'".

Definition build_unh_segment (message_ref_num : string) : string :=
  "UNH+" ++ message_ref_num ++ "+CODECO:D:96A:UN:EANCOM'".

Definition build_bgm_segment (container_number status : string) : string :=
  "BGM+393+" ++ container_number ++ "+9'".

Definition build_dtm_segment (created_date created_time : string) : string :=
  let datetime_str := created_date ++ created_time in
  "DTM+137:" ++ datetime_str ++ ":204'".

Definition build_nad_segment (party_role party_id : string) (party_name : option string)
  : string :=
  if truthy_opt party_name
  then "NAD+" ++ party_role ++ "+" ++ party_id ++ "++" ++ fmt party_name ++ "'"
  else "NAD+" ++ party_role ++ "+" ++ party_id ++ "'".

Definition build_cod_segment (container_number container_size status : string) : string :=
  "COD+" ++ container_number ++ "+" ++ container_size ++ "+" ++ status ++ "'".

Definition build_loc_segment (location_type location_code : string) : string :=
  "LOC+" ++ location_type ++ "+" ++ location_code ++ "'".

Definition build_mea_segment (measurement_type measurement_value unit : string) : string :=
  "MEA+" ++ measurement_type ++ "+" ++ unit ++ "+" ++ measurement_value ++ "'".

Definition build_unt_segment (segment_count : nat) (message_ref_num : string) : string :=
  "UNT+" ++ Py.str_nat segment_count ++ "+" ++ message_ref_num ++ "'".

Definition build_unz_segment (message_count : nat) (interchange_control_ref : string) : string :=
  "UNZ+" ++ Py.str_nat message_count ++ "+" ++ interchange_control_ref ++ "'".

Definition header_text (doc : xml_doc) (t : string) : option string :=
  match doc_header doc with Some h => findtext h t | None => Some "UNKNOWN" end.

Definition item_text (doc : xml_doc) (t : string) : option string :=
  match doc_item doc with Some i => findtext i t | None => Some "" end.

(** [map_xml_to_codeco], from the parsed tree on. *)
Definition map_xml_to_codeco (doc : xml_doc) : result string :=
  let company_code := header_text doc "Company_Code" in
  let plant := header_text doc "Plant" in
  let customer := header_text doc "Customer" in
  let transporter := item_text doc "Transporter" in
  let container_number := item_text doc "Container_Number" in
  let container_size := item_text doc "Container_Size" in
  let status := item_text doc "Status" in
  let created_date := item_text doc "Created_Date" in
  let created_time := item_text doc "Created_Time" in
  let* timestamp := strptime_YmdHMS (fmt created_date ++ fmt created_time) in
  let message_ref_num := "1" in
  let segments :=
    [build_unb_segment (fmt company_code) (fmt plant) timestamp;
     build_unh_segment message_ref_num;
     build_bgm_segment (fmt container_number) (fmt status);
     build_dtm_segment (fmt created_date) (fmt created_time);
     build_nad_segment "TO" (fmt plant) None;
     build_nad_segment "FR" (fmt transporter) transporter;
     build_nad_segment "SH" (fmt customer) None;
     build_loc_segment "87" (fmt plant);
     build_cod_segment (fmt container_number) (fmt container_size) (fmt status);
     build_unt_segment 11 message_ref_num;
     build_unz_segment 1 (fmt_YmdHMS timestamp)] in
  Ok (String.concat (String "010" EmptyString) segments).

Definition exn_str (e : exn) : string :=
  match e with ValueError m | IndexError m | Exception m => m end.

(** [convert_xml_to_edi]: every failure is re-raised with context. *)
Definition convert_xml_to_edi (src : xml_source) : result string :=
  match src with
  | XmlSyntaxError m => Err (Exception ("Failed to convert XML to EDI: " ++ m))
  | XmlTree doc =>
      match map_xml_to_codeco doc with
      | Ok s => Ok s
      | Err e => Err (Exception ("Failed to convert XML to EDI: " ++ exn_str e))
      end
  end.

(** [strip_edi_formatting]: [edi_message.replace('\n', '')]. *)
Definition strip_edi_formatting (edi_message : string) : string :=
  Py.replace (String "010" EmptyString) EmptyString edi_message.

(** lxml's test on a text assigned with [.text = value]: a character
    below 32 other than tab, newline and carriage return is not XML
    compatible. *)
Definition xml_char_ok (c : ascii) : bool :=
  let n := nat_of_ascii c in
  (n =? 9) || (n =? 10) || (n =? 13) || (32 <=? n).

Fixpoint xml_text_ok (s : string) : bool :=
  match s with
  | EmptyString => true
  | String c r => xml_char_ok c && xml_text_ok r
  end.

(** The [ValueError] lxml raises on such a text. *)
Definition xml_compat_error : exn :=
  ValueError "All strings must be XML compatible: Unicode or ASCII, no NULL bytes or control characters".

(** Successive [etree.SubElement(parent, tag).text = value]: the children
    built so far, or the error of the first text lxml refuses. *)
Fixpoint set_texts (cs : list (string * string)) : result element :=
  match cs with
  | [] => Ok []
  | (t, v) :: r =>
      if xml_text_ok v then let* r' := set_texts r in Ok ((t, Some v) :: r')
      else Err xml_compat_error
  end.

(** The children of [Header] and of [Item], in the order [generate_xml]
    creates them, with the texts it assigns from [data]. *)
Definition xml_header_texts (data : Py.dict) : list (string * string) :=
  [("Company_Code", "CIABJ31"); ("Plant", Py.get data "yardId" "");
   ("Customer", Py.get data "client" "")].

Definition xml_item_texts (data : Py.dict) : list (string * string) :=
  [("Weighbridge_ID", Py.get data "weighbridge_id" "");
   ("Weighbridge_ID_SNO", Py.get data "weighbridge_id_sno" "");
   ("Transporter", Py.get data "transporter" "");
   ("Container_Number", Py.get data "container_number" "");
   ("Container_Size", Py.get data "container_size" "");
   ("Design", "003"); ("Type", "02"); ("Color", "#312682"); ("Clean_Type", "001");
   ("Status", Py.get data "status" ""); ("Device_Number", "TD2019031200");
   ("Vehicle_Number", Py.get data "vehicle_number" "");
   ("Created_Date", Py.get data "created_date" "");
   ("Created_Time", Py.get data "created_time" "");
   ("Created_By", Py.get data "created_by" "");
   ("Changed_Date", Py.get data "changed_date" "");
   ("Changed_Time", Py.get data "changed_time" "");
   ("Changed_By", Py.get data "created_by" "");
   ("Num_Of_Entries", "1")].

(** [generate_xml] ([xml_generator.py]): the tree it serialises, or the
    [ValueError] of lxml, which is not caught; the serialisation and the
    re-parse in [map_xml_to_codeco] preserve the accepted texts. *)
Definition generate_xml (request_data : Py.dict) : result xml_doc :=
  let* header := set_texts (xml_header_texts request_data) in
  let* item := set_texts (xml_item_texts request_data) in
  Ok {| doc_header := Some header; doc_item := Some item |}.

(** The descriptive encoder on a request record: [generate_xml] followed
    by [convert_xml_to_edi]. *)
Definition encode_record (request_data : Py.dict) : result string :=
  let* doc := generate_xml request_data in
  convert_xml_to_edi (XmlTree doc).

End Descriptive.

(* ------------------------------------------------------------------ *)
(** ** Compact-profile encoder ([codeco_generator_simple.py]) *)

Module Compact.
Import Time.

Definition type_mapping : Py.dict :=
  [("dry", "EM"); ("empty", "EM"); ("full", "FL"); ("reefer", "RE");
   ("tank", "TK"); ("flat_rack", "FR"); ("open_top", "OT")].

(** The list [segments] built by [generate_codeco_edi]; [current_dt] is
    the value of [datetime.now(timezone.utc)]. *)
Definition generate_codeco_segments (data : Py.dict) (current_dt : datetime)
  : list string :=
  let mm := fmt_m current_dt in
  let dd := fmt_d current_dt in
  let hh := fmt_H current_dt in
  let min_val := fmt_M current_dt in
  let msg_ref := "COD" ++ mm ++ dd ++ hh ++ min_val in
  let sender_code := Py.get data "sender" (Py.get data "company_code" "MANTRA") in
  let control_ref := sender_code ++ mm ++ dd in
  let msg_date := fmt_y current_dt ++ fmt_m current_dt ++ fmt_d current_dt in
  let msg_time := fmt_H current_dt ++ fmt_M current_dt in
  let receiver := Py.get data "receiver" (Py.get data "customer" "CLIENT") in
  let seg_unb := "UNB+UNOA:1+" ++ sender_code ++ "+" ++ receiver ++ "+" ++ msg_date
                   ++ ":" ++ msg_time ++ "+" ++ control_ref ++ "'" in
  let seg_unh := "UNH+" ++ msg_ref ++ "+CODECO:D:95B:UN:ITG14'" in
  let container_number := Py.get data "container_number" "" in
  let doc_number := container_number ++ mm ++ dd ++ hh ++ min_val in
  let seg_bgm := "BGM+36+" ++ doc_number ++ "+9'" in
  let seg_ftx := "FTX+AAI'" in
  let seg_tdt := "TDT+1++3+31'" in
  let seg_nad_ms := "NAD+MS+" ++ sender_code ++ "'" in
  let seg_nad_cf := "NAD+CF+" ++ receiver ++ ":160:20'" in
  let container_size := Py.replace "ft" "" (Py.get data "container_size" "40") in
  let container_type := Py.get data "container_type" "EM" in
  let container_type_code :=
    Py.get type_mapping (Py.lower container_type) (Py.upper container_type) in
  let size_type := container_size ++ container_type_code in
  let seg_eqd := "EQD+CN+" ++ container_number ++ "+" ++ size_type ++ ":102:5+++4'" in
  let rff_bn :=
    if Py.truthy (Py.get data "booking_reference" "")
    then ["RFF+BN:" ++ Py.get data "booking_reference" "" ++ "'"] else [] in
  let rff_eqr :=
    if Py.truthy (Py.get data "equipment_reference" "")
       && Py.contains "ONEY" (Py.upper (Py.get data "customer" ""))
    then ["RFF+EQR:" ++ Py.get data "equipment_reference" "" ++ "'"] else [] in
  let operation_date := Py.get data "operation_date" (fmt_y current_dt ++ fmt_m current_dt
                                                        ++ fmt_d current_dt) in
  let operation_time := Py.get data "operation_time" (fmt_H current_dt ++ fmt_M current_dt
                                                        ++ fmt_S current_dt) in
  let operation_datetime :=
    if String.length operation_date =? 6 then "20" ++ operation_date ++ operation_time
    else if String.length operation_date =? 8 then operation_date ++ operation_time
    else fmt_YmdHMS current_dt in
  let seg_dtm := "DTM+203:" ++ operation_datetime ++ ":203'" in
  let location_code0 := Py.get data "location_code" "CIABJ" in
  let location_code :=
    if Py.contains "-" location_code0 && (20 <? String.length location_code0)
    then "CIABJ" else location_code0 in
  let location_details0 := Py.get data "location_details" "CIABJ32:STO:ZZZ" in
  let customer := Py.upper (Py.get data "customer" "") in
  let receiver_upper := Py.upper receiver in
  let location_details :=
    if Py.contains "PIL" customer || Py.contains "PIL" receiver_upper
    then "CIABJ31:STO:ZZZ"
    else if Py.contains "ONEY" customer || Py.contains "ONEY" receiver_upper
    then "CIABJ32:STO:ZZZ"
    else location_details0 in
  let seg_loc := "LOC+165+" ++ location_code ++ ":139:6+" ++ location_details ++ "'" in
  let seg_cnt := "CNT+16:1'" in
  let segments := app [seg_unb; seg_unh; seg_bgm; seg_ftx; seg_tdt; seg_nad_ms;
                       seg_nad_cf; seg_eqd]
                      (app rff_bn (app rff_eqr [seg_dtm; seg_loc; seg_cnt])) in
  let segment_count := List.length segments - 1 + 1 in
  app segments ["UNT+" ++ Py.str_nat segment_count ++ "+" ++ msg_ref ++ "'";
                "UNZ+1+" ++ control_ref ++ "'"].

(** [generate_codeco_edi]: the segments joined without separator. *)
Definition generate_codeco_edi (data : Py.dict) (current_dt : datetime) : string :=
  String.concat "" (generate_codeco_segments data current_dt).

End Compact.

(* ------------------------------------------------------------------ *)
(** ** EDI to XML field mapper ([_map_edi_data_to_xml_structure]) *)

Module Mapper.
Import Parser Time.

Definition find_party (q : string) (ps : list Py.dict) : option Py.dict :=
  fold_left (fun acc p => if String.eqb (Py.get p "party_qualifier" "") q
                          then Some p else acc) ps None.

(** The [for ... if ... break] over [dates]: the first DTM with qualifier
    137 decides, whatever its length. *)
Fixpoint creation_datetime (ds : list Py.dict) : option (string * string) :=
  match ds with
  | [] => None
  | d :: r =>
      if String.eqb (Py.get d "date_time_qualifier" "") "137" then
        let datetime_str := Py.get d "date_time" "" in
        if 14 <=? String.length datetime_str
        then Some (substring 0 8 datetime_str, substring 8 6 datetime_str)
        else None
      else creation_datetime r
  end.

(** The [for ... if ... break] over [locations]. *)
Fixpoint location_87 (ls : list Py.dict) : option (option string) :=
  match ls with
  | [] => None
  | l :: r =>
      if String.eqb (Py.get l "location_qualifier" "") "87"
      then Some (Py.dict_get l "location_identification")
      else location_87 r
  end.

(** [location_code or X]: [None] and [''] are falsy. *)
Definition or_str (o : option string) (x : string) : string :=
  match o with Some s => if Py.truthy s then s else x | None => x end.

(** [x or datetime.now().strftime(f)]: the clock is read only when [x]
    is falsy; [n] counts the reads made so far. *)
Definition or_now (x : option string) (f : datetime -> string) (clock : nat -> datetime)
    (n : nat) : string * nat :=
  match x with
  | Some s => if Py.truthy s then (s, n) else (f (clock n), S n)
  | None => (f (clock n), S n)
  end.

(** [_map_edi_data_to_xml_structure]; [clock n] is the value of the
    [n]-th call of [datetime.now()], the calls made in the order the dict
    display evaluates them: [weighbridge_id] first, then each of the four
    date and time fallbacks that is taken. *)
Definition map_edi_data_to_xml_structure (parsed_data : ParsedMessage)
    (clock : nat -> datetime) : Py.dict :=
  let terminal_operator :=
    fold_left (fun acc p => if String.eqb (Py.get p "party_qualifier" "") "TO"
                            then Some p else acc) (parties parsed_data) None in
  let transporter := find_party "FR" (parties parsed_data) in
  let customer := find_party "SH" (parties parsed_data) in
  let creation := creation_datetime (dates parsed_data) in
  let creation_date := option_map fst creation in
  let creation_time := option_map snd creation in
  let location_code := match location_87 (locations parsed_data) with
                       | Some o => o | None => None end in
  let cd := container_details parsed_data in
  let ymd t := fmt_Y t ++ fmt_m t ++ fmt_d t in
  let hms t := fmt_H t ++ fmt_M t ++ fmt_S t in
  let weighbridge_id := "WB" ++ fmt_YmdHMS (clock 0) in
  (* each value paired with the number of clock reads made so far *)
  let created_date := or_now creation_date ymd clock 1 in
  let created_time := or_now creation_time hms clock (snd created_date) in
  let changed_date := or_now creation_date ymd clock (snd created_time) in
  let changed_time := or_now creation_time hms clock (snd changed_date) in
  [("yardId", match terminal_operator with
              | Some t => or_str location_code (Py.get t "party_identification" "")
              | None => ""
              end);
   ("client", match customer with Some c => Py.get c "party_identification" ""
                                | None => "" end);
   ("weighbridge_id", weighbridge_id);
   ("weighbridge_id_sno", "00001");
   ("transporter", match transporter with Some t => Py.get t "name_and_address" ""
                                       | None => "" end);
   ("container_number", Py.get cd "container_number" "");
   ("container_size", Py.get cd "container_size" "");
   ("status", Py.get cd "container_status" "");
   ("vehicle_number", "UNKNOWN");
   ("created_date", fst created_date); ("created_time", fst created_time);
   ("changed_date", fst changed_date); ("changed_time", fst changed_time);
   ("created_by", "EDI_IMPORT")].

End Mapper.

(* ------------------------------------------------------------------ *)
(** ** EDI to XML ([edi_parser.py]) *)

Module EdiToXml.
Import Parser Time Descriptive Mapper.




End EdiToXml.

(* ------------------------------------------------------------------ *)
(** ** Vocabulary of the properties *)

Module Vocab.
Import Segment Parser Time.

(** [get_composite] as the segment-model contract words it, for
    non-negative indices (an empty element counts as absent). *)
Definition composite_contract (seg : EDIFACTSegment) (ei ci : Z) (d : string) : string :=
  match nth_error (elements seg) (Z.to_nat ei) with
  | Some e => if Py.truthy e then nth (Z.to_nat ci) (Py.split_on ":" e) d else d
  | None => d
  end.

(** The validator's checks after the emptiness test, in order, each
    with the message it contributes when it fails. *)
Definition validator_checks (s : string) : list (bool * string) :=
  [(Py.contains "UNB+" s, "Missing UNB segment (message envelope)");
   (Py.contains "UNH+" s, "Missing UNH segment (message header)");
   (Py.contains "UNT+" s, "Missing UNT segment (message trailer)");
   (Py.contains "UNZ+" s, "Missing UNZ segment (envelope closing)");
   (Py.contains "CODECO" s, "Not a CODECO message type");
   (Py.contains "'" s, "Missing segment terminators (')");
   (match parse_edi_message s with Ok _ => true | Err _ => false end,
    match parse_edi_message s with
    | Ok _ => "" | Err e => "Parsing error: " ++ Descriptive.exn_str e end)].

Definition failed_messages (cs : list (bool * string)) : list string :=
  flat_map (fun c : bool * string => if fst c then [] else [snd c]) cs.

(** Tags with a field-extraction rule in [_parse_segments]. *)
Definition known_tag (t : string) : bool :=
  existsb (String.eqb t) ["UNB"; "UNH"; "BGM"; "DTM"; "NAD"; "COD"; "LOC"; "MEA";
                          "UNT"; "UNZ"].

(** Number of segments of a list that start with a given text. *)
Definition count_segments (pre : string) (segs : list string) : nat :=
  List.length (filter (String.prefix pre) segs).

(** The segments of a list that start with a given text. *)
Definition segments_starting (pre : string) (segs : list string) : list string :=
  filter (String.prefix pre) segs.

(** Characters of a string all satisfy [p]. *)
Fixpoint str_forallb (p : ascii -> bool) (s : string) : bool :=
  match s with
  | EmptyString => true
  | String c r => p c && str_forallb p r
  end.

(** Scanner of the text of a segment body that the decoder's whitespace
    normalisation leaves unchanged: no quote, whitespace only as single
    spaces right after a non-whitespace character.  State 0: start,
    1: after a non-whitespace character, 2: after a space. *)
Fixpoint body_st (st : nat) (s : string) : option nat :=
  match s with
  | EmptyString => Some st
  | String c r =>
      if Py.is_ws c then
        if Py.ascii_eqb c " " && (st =? 1) then body_st 2 r else None
      else if Py.ascii_eqb c "'" then None
      else body_st 1 r
  end.

(** A field value that survives the wire format: no EDIFACT element
    separator '+', no quote, and no whitespace other than single spaces
    each between two non-whitespace characters. *)
Definition part_ok (p : string) : bool :=
  match body_st 0 p with Some st => negb (st =? 2) | None => false end
  && str_forallb (fun c => negb (Py.ascii_eqb c "+")) p.

(** Every text that [generate_xml] assigns from [data] is one lxml
    accepts. *)
Definition xml_texts_ok (data : Py.dict) : bool :=
  forallb (fun cv => Descriptive.xml_text_ok (snd cv))
          (Descriptive.xml_header_texts data ++ Descriptive.xml_item_texts data).


(** A well-formed descriptive-profile request record: the fields that
    reach the wire are separator-free, the created date and time are 8
    and 6 digits and parse as a timestamp, and every value the XML
    generator writes is XML compatible. *)
Definition wf_record (req : Py.dict) : bool :=
  let g k := Py.get req k "" in
  part_ok (g "yardId") && part_ok (g "client") && part_ok (g "transporter")
  && part_ok (g "container_number") && part_ok (g "container_size")
  && part_ok (g "status")
  && str_forallb Py.is_digit (g "created_date") && (String.length (g "created_date") =? 8)
  && str_forallb Py.is_digit (g "created_time") && (String.length (g "created_time") =? 6)
  && match strptime_YmdHMS (g "created_date" ++ g "created_time") with
     | Ok _ => true | Err _ => false end
  && xml_texts_ok req.

(** Text of a segment from its tag and elements: [TAG+e1+e2...']. *)
Definition seg_txt (parts : list string) : string :=
  String.concat "+" parts ++ "'".

(** The line separator of the descriptive profile. *)
Definition nl : string := String "010" EmptyString.

(** The tag-and-elements lists of the 11 descriptive-profile segments for
    a request record and its parsed creation timestamp. *)
Definition descr_parts (req : Py.dict) (ts : datetime) : list (list string) :=
  let g k := Py.get req k "" in
  [["UNB"; "UNOC:3"; "CIABJ31"; g "yardId"; fmt_y ts ++ fmt_m ts ++ fmt_d ts;
    fmt_H ts ++ fmt_M ts; fmt_YmdHMS ts];
   ["UNH"; "1"; "CODECO:D:96A:UN:EANCOM"];
   ["BGM"; "393"; g "container_number"; "9"];
   ["DTM"; "137:" ++ (g "created_date" ++ g "created_time") ++ ":204"];
   ["NAD"; "TO"; g "yardId"];
   (if Py.truthy (g "transporter")
    then ["NAD"; "FR"; g "transporter"; ""; g "transporter"]
    else ["NAD"; "FR"; g "transporter"]);
   ["NAD"; "SH"; g "client"];
   ["LOC"; "87"; g "yardId"];
   ["COD"; g "container_number"; g "container_size"; g "status"];
   ["UNT"; "11"; "1"];
   ["UNZ"; "1"; fmt_YmdHMS ts]].

(** Characters that can stand in an element: not whitespace, not the
    segment terminator, not the element separator. *)
Definition safe_char (c : ascii) : bool :=
  negb (Py.is_ws c) && negb (Py.ascii_eqb c "'") && negb (Py.ascii_eqb c "+").

(** The descriptive-profile scenario record of the spec. *)
Definition scenario_record : Py.dict :=
  [("yardId", "419101"); ("client", "0001052069");
   ("container_number", "PCIU9507070"); ("container_size", "40");
   ("status", "01"); ("transporter", "PROPRE MOYEN");
   ("created_date", "20240425"); ("created_time", "040011")].

Definition sample_now : datetime := mkDatetime 2026 2 5 14 28 0.

(** A clock that always reads [sample_now]. *)
Definition sample_clock (n : nat) : datetime := sample_now.

(** A clock whose second read is one second before midnight and whose
    later reads fall on the next day. *)
Definition midnight_clock (n : nat) : datetime :=
  if n <=? 2 then mkDatetime 2026 2 5 23 59 59 else mkDatetime 2026 2 6 0 0 0.

(** Text made of ASCII characters only (below 128). *)
Fixpoint ascii_only (s : string) : bool :=
  match s with
  | EmptyString => true
  | String c r => (nat_of_ascii c <? 128) && ascii_only r
  end.

(** The parts of a segment: a non-empty tag and elements, all
    separator-free. *)
Definition parts_ok (p : list string) : Prop :=
  match p with
  | [] => False
  | t :: ps => t <> "" /\ part_ok t = true /\ Forall (fun q => part_ok q = true) ps
  end.

(** No segment terminator and no element separator in a text. *)
Definition sep_free (x : string) : bool :=
  str_forallb (fun c => negb (Py.ascii_eqb c "'") && negb (Py.ascii_eqb c "+")) x.

(** The segments of a list with a given tag, in order. *)
Definition with_tag (t : string) (segs : list Segment.EDIFACTSegment)
  : list Segment.EDIFACTSegment :=
  filter (fun sg => String.eqb (Segment.tag sg) t) segs.

(** The last segment of a list with a given tag. *)
Definition last_with_tag (t : string) (segs : list Segment.EDIFACTSegment)
  : option Segment.EDIFACTSegment :=
  fold_left (fun _ sg => Some sg) (with_tag t segs) None.

(** Element [i] of a segment, '' when absent. *)
Definition elem (sg : Segment.EDIFACTSegment) (i : nat) : string :=
  nth i (Segment.elements sg) "".

(** Component [j] of element [i] of a segment, '' when absent. *)
Definition comp (sg : Segment.EDIFACTSegment) (i j : nat) : string :=
  let e := elem sg i in
  nth j (if Py.truthy e then Py.split_on ":" e else []) "".


(** A decoded message with a LOC 87 and no NAD with qualifier TO. *)
Definition loc_without_to_text : string :=
  "UNB+UNOC:3+A+B+240101+1200+1'UNH+1+CODECO:D:96A:UN:EANCOM'LOC+87+CIABJ31'NAD+SH+0001052069'UNT+4+1'UNZ+1+1'".

(** The whitespace run that the quote squeezer holds back in a state of
    [body_st]: one space after a space, none otherwise. *)
Definition pend (st : nat) : string := if st =? 2 then " " else "".

(** Segment texts each followed by the terminator, joined by [sep]. *)
Definition joinq (sep : string) (bs : list string) : string :=
  String.concat sep (map (fun b => b ++ "'") bs).

(** A segment body that normalisation keeps: non-empty, accepted by the
    scanner and not ending in a space. *)
Definition good_body (b : string) : Prop :=
  b <> "" /\ exists st, body_st 0 b = Some st /\ st <> 2.
(** The last NAD segment whose party qualifier is [q]. *)
Definition last_party (q : string) (segs : list Segment.EDIFACTSegment)
  : option Segment.EDIFACTSegment :=
  fold_left (fun acc sg => if String.eqb (elem sg 0) q then Some sg else acc)
            (with_tag "NAD" segs) None.

(** The first DTM segment whose qualifier component is 137. *)
Definition first_dtm_137 (segs : list Segment.EDIFACTSegment)
  : option Segment.EDIFACTSegment :=
  find (fun sg => String.eqb (comp sg 0 0) "137") (with_tag "DTM" segs).

(** The date and time of the first DTM segment with qualifier 137, when
    its value has at least the 14 characters YYYYMMDDHHMMSS. *)
Definition full_dtm_137 (segs : list Segment.EDIFACTSegment) : option (string * string) :=
  match first_dtm_137 segs with
  | Some sg => let v := comp sg 0 1 in
               if 14 <=? String.length v then Some (substring 0 8 v, substring 8 6 v) else None
  | None => None
  end.

(** The first LOC segment whose qualifier is 87. *)
Definition first_loc_87 (segs : list Segment.EDIFACTSegment)
  : option Segment.EDIFACTSegment :=
  find (fun sg => String.eqb (elem sg 0) "87") (with_tag "LOC" segs).

Definition nad_entry (sg : Segment.EDIFACTSegment) : Py.dict :=
  [("party_qualifier", elem sg 0); ("party_identification", elem sg 1);
   ("name_and_address", elem sg 3)].
Definition loc_entry (sg : Segment.EDIFACTSegment) : Py.dict :=
  [("location_qualifier", elem sg 0); ("location_identification", elem sg 1)].
Definition dtm_entry (sg : Segment.EDIFACTSegment) : Py.dict :=
  [("date_time_qualifier", comp sg 0 0); ("date_time", comp sg 0 1);
   ("date_time_format", comp sg 0 2)].

(** The text without any occurrence of the character [d]. *)
Fixpoint drop_char (d : ascii) (s : string) : string :=
  match s with
  | EmptyString => EmptyString
  | String c r => if Py.ascii_eqb c d then drop_char d r else String c (drop_char d r)
  end.

(** The elements of the segment [build_mea_segment] writes for a
    (type, value, unit) triple. *)
Definition mea_parts (m : string * string * string) : list string :=
  let '(t, v, u) := m in ["MEA"; t; u; v].

(** A scanner for the output of [re.sub(r'\s+', ' ', ...)] applied to a
    stripped text: whitespace only as one space after a non-whitespace
    character (state 1); state 2 follows a space, 0 is the start. *)
Fixpoint col_st (st : nat) (s : string) : option nat :=
  match s with
  | EmptyString => Some st
  | String c r =>
      if Py.is_ws c then (if Py.ascii_eqb c " " && (st =? 1) then col_st 2 r else None)
      else col_st 1 r
  end.

(** The same scanner that also refuses a space next to a quote: state 3
    follows a quote, after which no space may come, and no quote may
    follow a space. *)
Fixpoint norm_st (st : nat) (s : string) : option nat :=
  match s with
  | EmptyString => Some st
  | String c r =>
      if Py.is_ws c then (if Py.ascii_eqb c " " && (st =? 1) then norm_st 2 r else None)
      else if Py.ascii_eqb c "'" then (if st =? 2 then None else norm_st 3 r)
      else norm_st 1 r
  end.

End Vocab.

(* ================================================================== *)
(** * Properties *)

(* ------------------------------------------------------------------ *)
(** ** Segment model *)

Module SegmentFacts.
Import Segment.

Lemma py_index_nonneg {A} (xs : list A) (i : Z) :
  (0 <= i)%Z -> (i < Z.of_nat (List.length xs))%Z ->
  exists x, nth_error xs (Z.to_nat i) = Some x /\ py_index xs i = Ok x.
Proof.
  intros Hi Hlt.
  destruct (nth_error xs (Z.to_nat i)) as [x|] eqn:E.
  - exists x. split; [reflexivity|].
    unfold py_index.
    replace (i <? 0)%Z with false by (symmetry; apply Z.ltb_ge; lia).
    replace ((0 <=? i) && (i <? Z.of_nat (List.length xs)))%Z with true
      by (symmetry; apply andb_true_iff; split; [apply Z.leb_le | apply Z.ltb_lt]; lia).
    now rewrite E.
  - apply nth_error_None in E. lia.
Qed.

(** [get_element] at a non-negative index is list [nth] with the default. *)
Lemma get_element_nonneg (seg : EDIFACTSegment) (i : Z) (d : string) :
  (0 <= i)%Z -> get_element seg i d = Ok (nth (Z.to_nat i) (elements seg) d).
Proof.
  intros Hi. unfold get_element.
  destruct (i <? Z.of_nat (List.length (elements seg)))%Z eqn:Hlt.
  - apply Z.ltb_lt in Hlt.
    destruct (py_index_nonneg (elements seg) i Hi Hlt) as [x [Hn Hp]].
    rewrite Hp. f_equal. symmetry. now apply nth_error_nth.
  - apply Z.ltb_ge in Hlt. f_equal. symmetry. apply nth_overflow. lia.
Qed.

(** [get_composite] at non-negative indices. *)
Lemma get_composite_nonneg (seg : EDIFACTSegment) (ei ci : Z) (d : string) :
  (0 <= ei)%Z -> (0 <= ci)%Z ->
  get_composite seg ei ci d =
  Ok (let element := nth (Z.to_nat ei) (elements seg) "" in
      if Py.truthy element then nth (Z.to_nat ci) (Py.split_on ":" element) d else d).
Proof.
  intros Hei Hci. unfold get_composite.
  rewrite (get_element_nonneg seg ei "" Hei). cbn [bind].
  set (element := nth (Z.to_nat ei) (elements seg) "").
  set (components := if Py.truthy element then Py.split_on ":" element else []).
  destruct (ci <? Z.of_nat (List.length components))%Z eqn:Hlt.
  - apply Z.ltb_lt in Hlt.
    destruct (py_index_nonneg components ci Hci Hlt) as [x [Hn Hp]].
    rewrite Hp. f_equal.
    apply (nth_error_nth _ _ d) in Hn. rewrite <- Hn.
    unfold components. destruct (Py.truthy element); [reflexivity|].
    cbn in Hlt. lia.
  - apply Z.ltb_ge in Hlt. f_equal.
    unfold components in Hlt. destruct (Py.truthy element); [|reflexivity].
    symmetry. apply nth_overflow. lia.
Qed.

End SegmentFacts.

(* ------------------------------------------------------------------ *)
(** ** Claims on the segment model, the decoder and the validator *)

Module DecoderProps.
Import Segment Parser Vocab SegmentFacts.

(** C9 (code bug): [get_element] raises [IndexError] for every index
    below [-len(elements)]: the index is below the length, so the
    subscript [self.elements[index]] runs and is out of range; the
    default is not returned. [get_composite] calls [get_element] first
    and raises the same error for such an element index, whatever the
    component index and default. *)
Theorem get_element_below_length_raises (seg : EDIFACTSegment) (i ci : Z) (d : string) :
  (i < - Z.of_nat (List.length (elements seg)))%Z ->
  get_element seg i d = Err (IndexError "list index out of range")
  /\ get_composite seg i ci d = Err (IndexError "list index out of range").
Proof.
  intros Hi.
  assert (E : forall d', get_element seg i d' = Err (IndexError "list index out of range")).
  { intros d'. unfold get_element, py_index.
    replace (i <? Z.of_nat (List.length (elements seg)))%Z with true
      by (symmetry; apply Z.ltb_lt; lia).
    replace (i <? 0)%Z with true by (symmetry; apply Z.ltb_lt; lia).
    replace (0 <=? Z.of_nat (List.length (elements seg)) + i)%Z with false
      by (symmetry; apply Z.leb_gt; lia).
    reflexivity. }
  split; [apply E|].
  unfold get_composite. rewrite (E ""). reflexivity.
Qed.

Lemma get_element_below_length_raises_witness :
  (-2 < - Z.of_nat (List.length (elements (mkSegment "NAD" ["TO"]))))%Z
  /\ get_element (mkSegment "NAD" ["TO"]) (-2) "d" = Err (IndexError "list index out of range")
  /\ get_composite (mkSegment "NAD" ["TO"]) (-2) 0 "d"
       = Err (IndexError "list index out of range").
Proof.
  split; [vm_compute; reflexivity|].
  apply (get_element_below_length_raises (mkSegment "NAD" ["TO"]) (-2) 0 "d").
  vm_compute. reflexivity.
Defined.

(** For non-negative indices the accessors behave as documented:
    [get_element] returns the element or, at or beyond the length, the
    caller's default, and [get_composite] returns the component of the
    element split on ':' or the caller's default when the element is
    absent (or empty) or the component index is out of range. *)
Lemma get_element_composite_default (seg : EDIFACTSegment) (i ci : Z) (d : string) :
  (0 <= i)%Z -> (0 <= ci)%Z ->
  get_element seg i d = Ok (nth (Z.to_nat i) (elements seg) d)
  /\ get_composite seg i ci d = Ok (composite_contract seg i ci d).
Proof.
  intros Hi Hci. split.
  - now apply get_element_nonneg.
  - rewrite (get_composite_nonneg seg i ci d Hi Hci). f_equal.
    unfold composite_contract. cbv zeta.
    destruct (nth_error (elements seg) (Z.to_nat i)) as [e|] eqn:E.
    + now rewrite (nth_error_nth _ _ "" E).
    + apply nth_error_None in E. now rewrite (nth_overflow _ "" E).
Qed.

(** C7 (counterexample): a blank input stops at the emptiness test: for
    ["   "] the validator returns only "EDI content is empty", although
    the text has no "UNB+" marker, so the UNB check did not contribute
    its message. *)
Lemma validate_blank_short_circuits :
  validate_edi_format "   " = (false, ["EDI content is empty"])
  /\ ~ (forall s, Py.contains "UNB+" s = false ->
                  In "Missing UNB segment (message envelope)" (snd (validate_edi_format s))).
Proof.
  split; [reflexivity|].
  intros H. specialize (H "   " eq_refl). cbn in H.
  destruct H as [H|H]; [discriminate H | exact H].
Qed.

(** C7 (amended): an empty or whitespace-only input yields exactly
    [(false, ["EDI content is empty"])]; for any other input all the
    remaining checks run, each failing one contributes its own message in
    order, and [is_valid] holds iff the error list is empty. *)
Theorem validate_collects_all_failures (s : string) :
  (Py.strip s = "" -> validate_edi_format s = (false, ["EDI content is empty"]))
  /\ (Py.strip s <> "" ->
      snd (validate_edi_format s) = failed_messages (validator_checks s)
      /\ (fst (validate_edi_format s) = true <-> snd (validate_edi_format s) = [])).
Proof.
  unfold validate_edi_format.
  split.
  - intros H. rewrite H. now rewrite orb_true_r.
  - intros H.
    assert (Ht : Py.truthy (Py.strip s) = true).
    { unfold Py.truthy. destruct (Py.strip s); [congruence | reflexivity]. }
    assert (Hs : Py.truthy s = true).
    { destruct s; [cbn in H; congruence | reflexivity]. }
    rewrite Ht, Hs. cbn [negb orb].
    unfold failed_messages, validator_checks.
    destruct (Py.contains "UNB+" s), (Py.contains "UNH+" s), (Py.contains "UNT+" s),
      (Py.contains "UNZ+" s), (Py.contains "CODECO" s), (Py.contains "'" s),
      (parse_edi_message s) as [pm|[m|m|m]];
      cbn; split; (reflexivity || (split; intros; congruence)).
Qed.

Lemma validate_collects_all_failures_witness :
  validate_edi_format "  " = (false, ["EDI content is empty"])
  /\ snd (validate_edi_format "XYZ") = failed_messages (validator_checks "XYZ").
Proof.
  split.
  - apply (proj1 (validate_collects_all_failures "  ")). reflexivity.
  - assert (Hn : Py.strip "XYZ" <> "") by (vm_compute; discriminate).
    destruct (proj2 (validate_collects_all_failures "XYZ") Hn) as [H _]. exact H.
Defined.

End DecoderProps.

(* ------------------------------------------------------------------ *)
(** ** Claims on the descriptive-profile scenario and the field mapper *)

Module ScenarioProps.
Import Parser Vocab Descriptive Mapper.

(** C2: on the spec's descriptive-profile scenario record the encoder
    succeeds and its output contains BGM+393+PCIU9507070+9',
    COD+PCIU9507070+40+01' and UNT+11+1', and exactly three occurrences
    of "NAD+". *)
Theorem scenario_record_segments :
  match encode_record scenario_record with
  | Ok txt =>
      Py.contains "BGM+393+PCIU9507070+9'" txt = true
      /\ Py.contains "COD+PCIU9507070+40+01'" txt = true
      /\ Py.contains "UNT+11+1'" txt = true
      /\ Py.count "NAD+" txt = 3
  | Err _ => False
  end.
Proof. vm_compute. repeat split. Qed.

(** C4 (failing input): the text decodes, its LOC 87 location is
    "CIABJ31", yet the mapped yardId is '': the expression
    [location_code or terminal_operator.get(...) if terminal_operator else '']
    parses as [(location_code or ...) if terminal_operator else ''], so
    without a NAD TO the LOC 87 value is dropped. *)
Theorem yardid_ignores_loc87_without_nad_to :
  match parse_edi_message loc_without_to_text with
  | Ok pm =>
      location_87 (locations pm) = Some (Some "CIABJ31")
      /\ find_party "TO" (parties pm) = None
      /\ Py.get (map_edi_data_to_xml_structure pm sample_clock) "yardId" "?" = ""
  | Err _ => False
  end.
Proof. vm_compute. repeat split. Qed.

End ScenarioProps.

(* ------------------------------------------------------------------ *)
(** ** Claims on the compact-profile encoder *)

Module CompactProps.
Import Compact Vocab.

(** C5 (failing input): with an explicit [location_details] and a
    customer containing PIL, the LOC segment carries the inferred
    CIABJ31:STO:ZZZ, not the explicit value, although the code's comment
    says the inference applies only "if not explicitly set". *)
Theorem explicit_location_details_overridden :
  segments_starting "LOC+"
    (generate_codeco_segments [("customer", "PIL"); ("location_details", "CIABJ99:STO:ZZZ")]
       sample_now)
  = ["LOC+165+CIABJ:139:6+CIABJ31:STO:ZZZ'"].
Proof. vm_compute. reflexivity. Qed.

Lemma prefix_empty (s : string) : String.prefix "" s = true.
Proof. destruct s; reflexivity. Qed.

(** C10: the LOC segment is the only segment starting with "LOC+", and
    its location code is the default 'CIABJ' when the location_code value
    contains '-' and is longer than 20 characters, the value itself
    otherwise (the default 'CIABJ' when absent). *)
Theorem loc_code_uuid_replaced (data : Py.dict) (now : Time.datetime) :
  let v := Py.get data "location_code" "CIABJ" in
  exists details,
    segments_starting "LOC+" (generate_codeco_segments data now)
    = ["LOC+165+" ++ (if Py.contains "-" v && (20 <? String.length v) then "CIABJ" else v)
         ++ ":139:6+" ++ details ++ "'"].
Proof.
  cbv zeta. unfold generate_codeco_segments. cbv zeta.
  eexists. unfold segments_starting.
  destruct (Py.truthy (Py.get data "booking_reference" "")),
    (Py.truthy (Py.get data "equipment_reference" "")
     && Py.contains "ONEY" (Py.upper (Py.get data "customer" ""))); cbn; reflexivity.
Qed.

(** C8: the compact encoder emits exactly one RFF+EQR: segment when the
    customer contains ONEY case-insensitively and an equipment_reference
    is supplied, and none when the customer lacks the marker, whatever
    the equipment_reference. *)
Theorem eqr_reference_only_for_oney (data : Py.dict) (now : Time.datetime) :
  let marker := Py.contains "ONEY" (Py.upper (Py.get data "customer" "")) in
  (marker = true -> Py.truthy (Py.get data "equipment_reference" "") = true ->
   count_segments "RFF+EQR:" (generate_codeco_segments data now) = 1)
  /\ (marker = false ->
      count_segments "RFF+EQR:" (generate_codeco_segments data now) = 0).
Proof.
  cbv zeta. unfold count_segments, generate_codeco_segments. cbv zeta.
  split.
  - intros Hm He. rewrite Hm, He. cbn [andb].
    destruct (Py.truthy (Py.get data "booking_reference" "")); cbn;
      rewrite prefix_empty; reflexivity.
  - intros Hm. rewrite Hm, andb_false_r.
    destruct (Py.truthy (Py.get data "booking_reference" "")); cbn; reflexivity.
Qed.

Lemma eqr_reference_only_for_oney_witness :
  let data := [("customer", "oney lines"); ("equipment_reference", "SEAL123")] in
  count_segments "RFF+EQR:" (generate_codeco_segments data sample_now) = 1
  /\ count_segments "RFF+EQR:"
       (generate_codeco_segments [("customer", "PIL"); ("equipment_reference", "SEAL123")]
          sample_now) = 0.
Proof.
  cbv zeta. split.
  - apply (proj1 (eqr_reference_only_for_oney
                    [("customer", "oney lines"); ("equipment_reference", "SEAL123")] sample_now));
      vm_compute; reflexivity.
  - apply (proj2 (eqr_reference_only_for_oney
                    [("customer", "PIL"); ("equipment_reference", "SEAL123")] sample_now));
      vm_compute; reflexivity.
Defined.

End CompactProps.

(* ------------------------------------------------------------------ *)
(** ** Decoding failures and unknown tags *)

Module DecodeTotality.
Import Segment Parser Vocab SegmentFacts.

Lemma parse_segment_step_ok (data : ParsedMessage) (seg : EDIFACTSegment) :
  exists data', parse_segment_step data seg = Ok data'.
Proof.
  unfold parse_segment_step, parse_unb_segment, parse_unh_segment, parse_bgm_segment,
    parse_dtm_segment, parse_nad_segment, parse_cod_segment, parse_loc_segment,
    parse_mea_segment, parse_unt_segment, parse_unz_segment.
  rewrite !get_element_nonneg by lia.
  rewrite !get_composite_nonneg by lia.
  cbn [bind].
  repeat match goal with
         | |- context [if ?b then _ else _] => destruct b
         end; eexists; reflexivity.
Qed.

Lemma parse_segments_from_ok (data : ParsedMessage) (segs : list EDIFACTSegment) :
  exists pm, parse_segments_from data segs = Ok pm.
Proof.
  revert data. induction segs as [|s rest IH]; intros data.
  - now exists data.
  - cbn. destruct (parse_segment_step_ok data s) as [d' Hd]. rewrite Hd. cbn.
    apply IH.
Qed.

Lemma parse_segment_step_unknown (data : ParsedMessage) (seg : EDIFACTSegment) :
  known_tag (tag seg) = false -> parse_segment_step data seg = Ok data.
Proof.
  unfold known_tag. cbn [existsb]. intros H.
  repeat (apply orb_false_iff in H; destruct H as [? H]).
  unfold parse_segment_step.
  repeat match goal with
         | Hq : String.eqb _ _ = false |- _ => rewrite Hq; clear Hq
         end.
  reflexivity.
Qed.

Lemma parse_segments_from_filter (data : ParsedMessage) (segs : list EDIFACTSegment) :
  parse_segments_from data segs
  = parse_segments_from data (filter (fun sg => known_tag (tag sg)) segs).
Proof.
  revert data. induction segs as [|s rest IH]; intros data; [reflexivity|].
  cbn [filter]. destruct (known_tag (tag s)) eqn:Hk.
  - cbn. destruct (parse_segment_step data s); cbn; [apply IH | reflexivity].
  - cbn. rewrite (parse_segment_step_unknown data s Hk). cbn. apply IH.
Qed.

(** C6: decoding raises iff no segment with a non-empty tag is found
    after normalising and splitting; segments with tags that have no
    extraction rule are ignored (the result is the one of the known-tag
    segments alone); and the spec's message with an extra XYZ+1+2'
    segment decodes to the same result as without it. *)
Theorem decode_fails_only_without_segments :
  (forall s, (exists e, parse_edi_message s = Err e)
             <-> split_into_segments (normalize_edi_content s) = [])
  /\ (forall segs, parse_segments segs
                   = parse_segments (filter (fun sg => known_tag (tag sg)) segs))
  /\ parse_edi_message
       "UNB+UNOC:3+A+B+240101+1200+1'XYZ+1+2'UNH+1+CODECO:D:96A:UN:EANCOM'UNT+2+1'UNZ+1+1'"
     = parse_edi_message
       "UNB+UNOC:3+A+B+240101+1200+1'UNH+1+CODECO:D:96A:UN:EANCOM'UNT+2+1'UNZ+1+1'".
Proof.
  split; [|split].
  - intros s. unfold parse_edi_message.
    destruct (split_into_segments (normalize_edi_content s)) as [|sg rest].
    + split; [reflexivity | intros _; eexists; reflexivity].
    + split; [|discriminate].
      intros [e He]. unfold parse_segments in He.
      destruct (parse_segments_from_ok empty_data (sg :: rest)) as [pm Hpm].
      rewrite Hpm in He. discriminate.
  - intros segs. apply parse_segments_from_filter.
  - vm_compute. reflexivity.
Qed.

Lemma decode_fails_only_without_segments_witness :
  split_into_segments (normalize_edi_content " ' ") = []
  /\ exists e, parse_edi_message " ' " = Err e.
Proof.
  destruct decode_fails_only_without_segments as [H _].
  split; [vm_compute; reflexivity|].
  apply H. vm_compute. reflexivity.
Defined.

End DecodeTotality.

(* ------------------------------------------------------------------ *)
(** ** Wire-format lemmas: normalisation and splitting of clean text *)

Module WireLemmas.
Import Segment Parser Time Vocab.

Lemma str_app_assoc (a b c : string) : (a ++ b) ++ c = a ++ (b ++ c).
Proof. induction a as [|x a IH]; cbn; [reflexivity | now rewrite IH]. Qed.

Lemma str_app_nil_r (a : string) : a ++ "" = a.
Proof. induction a as [|x a IH]; cbn; [reflexivity | now rewrite IH]. Qed.

Lemma str_forallb_app (p : ascii -> bool) (a b : string) :
  str_forallb p (a ++ b) = str_forallb p a && str_forallb p b.
Proof.
  induction a as [|x a IH]; cbn; [reflexivity|].
  rewrite IH. now rewrite andb_assoc.
Qed.

Lemma body_st_app (st : nat) (a b : string) :
  body_st st (a ++ b) = match body_st st a with Some st' => body_st st' b | None => None end.
Proof.
  revert st. induction a as [|c a IH]; intros st; cbn; [reflexivity|].
  destruct (Py.is_ws c); [destruct (Py.ascii_eqb c " " && (st =? 1))|
                          destruct (Py.ascii_eqb c "'")]; auto.
Qed.

Lemma body_st_ws (st : nat) (c : ascii) (r : string) (st' : nat) :
  Py.is_ws c = true -> body_st st (String c r) = Some st' ->
  c = " "%char /\ st = 1 /\ body_st 2 r = Some st'.
Proof.
  cbn. intros Hw. rewrite Hw.
  destruct (Py.ascii_eqb c " ") eqn:Hc, (st =? 1) eqn:Hs; cbn; try discriminate.
  intros H. apply Ascii.eqb_eq in Hc. apply Nat.eqb_eq in Hs. auto.
Qed.

Lemma body_st_nonws (st : nat) (c : ascii) (r : string) (st' : nat) :
  Py.is_ws c = false -> body_st st (String c r) = Some st' ->
  Py.ascii_eqb c "'" = false /\ body_st 1 r = Some st'.
Proof.
  cbn. intros Hw. rewrite Hw.
  destruct (Py.ascii_eqb c "'"); [discriminate | auto].
Qed.

(** [re.sub(r'\s+', ' ', .)] leaves a clean piece of text unchanged. *)
Lemma collapse_body (st st' : nat) (s rest : string) :
  body_st st s = Some st' ->
  collapse_ws (st =? 2) (s ++ rest) = s ++ collapse_ws (st' =? 2) rest.
Proof.
  revert st. induction s as [|c r IH]; intros st H.
  - cbn in H. now injection H as ->.
  - destruct (Py.is_ws c) eqn:Hw.
    + destruct (body_st_ws st c r st' Hw H) as [-> [-> H2]].
      pose proof (IH 2 H2) as E. cbn [Nat.eqb] in E.
      cbn [Nat.eqb append collapse_ws]. rewrite Hw, E. reflexivity.
    + destruct (body_st_nonws st c r st' Hw H) as [_ H1].
      pose proof (IH 1 H1) as E. cbn [Nat.eqb] in E.
      cbn [append collapse_ws]. rewrite Hw, E. reflexivity.
Qed.

(** [re.sub(r"\s*'\s*", "'", .)] leaves a clean piece of text unchanged. *)
Lemma squeeze_body (st st' : nat) (s rest : string) :
  body_st st s = Some st' ->
  exists X, pend st ++ s = X ++ pend st'
            /\ squeeze_quotes false (pend st) (s ++ rest)
               = X ++ squeeze_quotes false (pend st') rest.
Proof.
  revert st. induction s as [|c r IH]; intros st H.
  - cbn in H. injection H as <-. exists "".
    split; [apply str_app_nil_r | reflexivity].
  - destruct (Py.is_ws c) eqn:Hw.
    + destruct (body_st_ws st c r st' Hw H) as [-> [-> H2]].
      destruct (IH 2 H2) as [X [HX1 HX2]].
      exists X. split; [exact HX1|].
      cbn [pend Nat.eqb append squeeze_quotes]. rewrite Hw. exact HX2.
    + destruct (body_st_nonws st c r st' Hw H) as [Hq H1].
      destruct (IH 1 H1) as [X [HX1 HX2]].
      exists (pend st ++ String c X). cbn [pend Nat.eqb append] in HX1.
      split.
      * rewrite str_app_assoc. cbn. now rewrite HX1.
      * cbn [squeeze_quotes append]. rewrite Hw, Hq.
        change (pend 1) with "" in HX2. rewrite HX2.
        rewrite str_app_assoc. reflexivity.
Qed.

Lemma squeeze_body0 (st' : nat) (s rest : string) :
  body_st 0 s = Some st' -> st' <> 2 ->
  squeeze_quotes false "" (s ++ rest) = s ++ squeeze_quotes false "" rest.
Proof.
  intros H Hn. destruct (squeeze_body 0 st' s rest H) as [X [H1 H2]].
  unfold pend in H1, H2. cbn [Nat.eqb] in H1, H2.
  replace (st' =? 2) with false in H1, H2 by (symmetry; now apply Nat.eqb_neq).
  cbn in H1. rewrite str_app_nil_r in H1. subst X. exact H2.
Qed.

Lemma lstrip_body (st : nat) (s : string) : body_st 0 s = Some st -> Py.lstrip s = s.
Proof.
  destruct s as [|c r]; [reflexivity|]. intros H. cbn.
  destruct (Py.is_ws c) eqn:Hw; [|reflexivity].
  destruct (body_st_ws 0 c r st Hw H) as [_ [H0 _]]. discriminate.
Qed.

Lemma rstrip_body (st0 st : nat) (s : string) :
  body_st st0 s = Some st -> st <> 2 -> Py.rstrip s = s.
Proof.
  revert st0. induction s as [|c r IH]; intros st0 H Hn; [reflexivity|].
  destruct (Py.is_ws c) eqn:Hw.
  - destruct (body_st_ws st0 c r st Hw H) as [-> [_ H2]].
    cbn. rewrite (IH 2 H2 Hn).
    destruct r; [cbn in H2; injection H2 as <-; congruence | reflexivity].
  - destruct (body_st_nonws st0 c r st Hw H) as [_ H1].
    cbn. rewrite (IH 1 H1 Hn). rewrite Hw. destruct r; reflexivity.
Qed.

Lemma strip_body (st : nat) (s : string) :
  body_st 0 s = Some st -> st <> 2 -> Py.strip s = s.
Proof.
  intros H Hn. unfold Py.strip. rewrite (lstrip_body st s H).
  exact (rstrip_body 0 st s H Hn).
Qed.

Lemma rstrip_last (P : string) (c : ascii) :
  Py.is_ws c = false -> Py.rstrip (P ++ String c "") = P ++ String c "".
Proof.
  intros Hw. induction P as [|x P IH]; cbn.
  - now rewrite Hw.
  - cbn in IH. rewrite IH. destruct P; reflexivity.
Qed.

Lemma split_on_app (d : ascii) (a b : string) :
  str_forallb (fun c => negb (Py.ascii_eqb c d)) a = true ->
  Py.split_on d (a ++ String d b) = a :: Py.split_on d b.
Proof.
  induction a as [|c a IH]; intros H; cbn.
  - now rewrite Ascii.eqb_refl.
  - cbn in H. apply andb_true_iff in H as [Hc H].
    apply negb_true_iff in Hc. rewrite Hc, (IH H). reflexivity.
Qed.

Lemma split_on_none (d : ascii) (a : string) :
  str_forallb (fun c => negb (Py.ascii_eqb c d)) a = true -> Py.split_on d a = [a].
Proof.
  induction a as [|c a IH]; intros H; cbn; [reflexivity|].
  cbn in H. apply andb_true_iff in H as [Hc H].
  apply negb_true_iff in Hc. rewrite Hc, (IH H). reflexivity.
Qed.

Lemma body_st_noquote (st st' : nat) (s : string) :
  body_st st s = Some st' -> str_forallb (fun c => negb (Py.ascii_eqb c "'")) s = true.
Proof.
  revert st. induction s as [|c r IH]; intros st H; [reflexivity|].
  destruct (Py.is_ws c) eqn:Hw.
  - destruct (body_st_ws st c r st' Hw H) as [-> [_ H2]]. cbn. exact (IH 2 H2).
  - destruct (body_st_nonws st c r st' Hw H) as [Hq H1]. cbn. rewrite Hq. exact (IH 1 H1).
Qed.

Lemma good_body_head (b : string) :
  good_body b ->
  exists c r, b = String c r /\ Py.is_ws c = false /\ Py.ascii_eqb c "'" = false.
Proof.
  intros [Hne [st [H Hn]]]. destruct b as [|c r]; [congruence|].
  exists c, r. split; [reflexivity|].
  destruct (Py.is_ws c) eqn:Hw.
  - destruct (body_st_ws 0 c r st Hw H) as [_ [H0 _]]. discriminate.
  - destruct (body_st_nonws 0 c r st Hw H) as [Hq _]. auto.
Qed.

Lemma joinq_one (sep b : string) : joinq sep [b] = b ++ "'".
Proof. reflexivity. Qed.

Lemma joinq_cons2 (sep b b2 : string) (bs : list string) :
  joinq sep (b :: b2 :: bs) = b ++ ("'" ++ sep ++ joinq sep (b2 :: bs)).
Proof. unfold joinq. cbn [map String.concat]. now rewrite str_app_assoc. Qed.

Lemma joinq_head (sep b : string) (bs : list string) :
  exists t, joinq sep (b :: bs) = b ++ t.
Proof.
  destruct bs as [|b2 bs].
  - exists "'". reflexivity.
  - eexists. apply joinq_cons2.
Qed.

Lemma joinq_last (sep b : string) (bs : list string) :
  exists P, joinq sep (b :: bs) = P ++ String "'" "".
Proof.
  revert b. induction bs as [|b2 bs IH]; intros b.
  - exists b. reflexivity.
  - destruct (IH b2) as [P HP]. rewrite joinq_cons2, HP.
    exists (b ++ "'" ++ sep ++ P).
    now rewrite !str_app_assoc.
Qed.

Lemma joinq0_cons (b : string) (bs : list string) :
  joinq "" (b :: bs) = b ++ String "'" (joinq "" bs).
Proof. destruct bs as [|b2 bs]; [reflexivity | apply joinq_cons2]. Qed.

Lemma good_joinq_head (sep b : string) (bs : list string) :
  good_body b ->
  exists c r, joinq sep (b :: bs) = String c r
              /\ Py.is_ws c = false /\ Py.ascii_eqb c "'" = false.
Proof.
  intros Hb. destruct (good_body_head b Hb) as [c [r [-> [Hw Hq]]]].
  destruct (joinq_head sep (String c r) bs) as [t Ht].
  exists c, (r ++ t). rewrite Ht. auto.
Qed.

Lemma collapse_head (c : ascii) (r : string) :
  Py.is_ws c = false -> collapse_ws true (String c r) = collapse_ws false (String c r).
Proof. intros Hw. cbn. now rewrite Hw. Qed.

Lemma squeeze_head (c : ascii) (r : string) :
  Py.is_ws c = false -> Py.ascii_eqb c "'" = false ->
  squeeze_quotes true "" (String c r) = squeeze_quotes false "" (String c r).
Proof. intros Hw Hq. cbn. now rewrite Hw, Hq. Qed.

(** Collapsing the whitespace of newline-separated segments. *)
Lemma collapse_join (b : string) (bs : list string) :
  Forall good_body (b :: bs) ->
  collapse_ws false (joinq nl (b :: bs)) = joinq " " (b :: bs).
Proof.
  revert b. induction bs as [|b2 bs IH]; intros b Hall;
    inversion Hall as [|? ? Hb Hrest]; subst;
    destruct Hb as [Hne [st [Hst Hn]]].
  - rewrite !joinq_one.
    pose proof (collapse_body 0 st b "'" Hst) as E. cbn [Nat.eqb] in E. rewrite E.
    replace (st =? 2) with false by (symmetry; now apply Nat.eqb_neq).
    reflexivity.
  - rewrite !joinq_cons2.
    pose proof (collapse_body 0 st b ("'" ++ nl ++ joinq nl (b2 :: bs)) Hst) as E.
    cbn [Nat.eqb] in E. rewrite E.
    replace (st =? 2) with false by (symmetry; now apply Nat.eqb_neq).
    inversion Hrest as [|? ? Hb2 _]; subst.
    destruct (good_joinq_head nl b2 bs Hb2) as [c [r [Hj [Hw _]]]].
    change (collapse_ws false ("'" ++ nl ++ joinq nl (b2 :: bs)))
      with (String "'" (String " " (collapse_ws true (joinq nl (b2 :: bs))))).
    rewrite Hj, collapse_head by exact Hw. rewrite <- Hj, IH by exact Hrest.
    reflexivity.
Qed.

(** Dropping the spaces around the segment terminators. *)
Lemma squeeze_join (b : string) (bs : list string) :
  Forall good_body (b :: bs) ->
  squeeze_quotes false "" (joinq " " (b :: bs)) = joinq "" (b :: bs).
Proof.
  revert b. induction bs as [|b2 bs IH]; intros b Hall;
    inversion Hall as [|? ? Hb Hrest]; subst;
    destruct Hb as [Hne [st [Hst Hn]]].
  - rewrite !joinq_one. rewrite (squeeze_body0 st b "'" Hst Hn). reflexivity.
  - rewrite !joinq_cons2. rewrite (squeeze_body0 st b _ Hst Hn).
    inversion Hrest as [|? ? Hb2 _]; subst.
    destruct (good_joinq_head " " b2 bs Hb2) as [c [r [Hj [Hw Hq]]]].
    change (squeeze_quotes false "" ("'" ++ " " ++ joinq " " (b2 :: bs)))
      with (String "'" (squeeze_quotes true "" (joinq " " (b2 :: bs)))).
    rewrite Hj, squeeze_head by assumption. rewrite <- Hj, IH by exact Hrest.
    reflexivity.
Qed.

Lemma lstrip_head (c : ascii) (r : string) :
  Py.is_ws c = false -> Py.lstrip (String c r) = String c r.
Proof. intros Hw. cbn. now rewrite Hw. Qed.

(** The decoder's normalisation turns the newline-separated encoder
    output into the bare concatenation of its segments. *)
Lemma normalize_join (b : string) (bs : list string) :
  Forall good_body (b :: bs) ->
  normalize_edi_content (joinq nl (b :: bs)) = joinq "" (b :: bs).
Proof.
  intros Hall. unfold normalize_edi_content, Py.strip.
  inversion Hall as [|? ? Hb _]; subst.
  destruct (good_joinq_head nl b bs Hb) as [c [r [Hj [Hw _]]]].
  rewrite Hj, lstrip_head by exact Hw. rewrite <- Hj.
  destruct (joinq_last nl b bs) as [P HP].
  rewrite HP, rstrip_last by reflexivity. rewrite <- HP.
  rewrite collapse_join by exact Hall.
  now apply squeeze_join.
Qed.

Lemma good_body_noquote (b : string) :
  good_body b -> str_forallb (fun c => negb (Py.ascii_eqb c "'")) b = true.
Proof. intros [_ [st [H _]]]. exact (body_st_noquote 0 st b H). Qed.

Lemma split_joinq (bs : list string) :
  Forall good_body bs -> Py.split_on "'" (joinq "" bs) = app bs [""].
Proof.
  induction bs as [|b bs IH]; intros Hall; [reflexivity|].
  inversion Hall as [|? ? Hb Hrest]; subst.
  rewrite joinq0_cons, split_on_app by exact (good_body_noquote b Hb).
  rewrite IH by exact Hrest. reflexivity.
Qed.

Lemma part_ok_spec (p : string) :
  part_ok p = true ->
  (exists st, body_st 0 p = Some st /\ st <> 2)
  /\ str_forallb (fun c => negb (Py.ascii_eqb c "+")) p = true.
Proof.
  unfold part_ok. intros H. apply andb_true_iff in H as [H1 H2]. split; [|exact H2].
  destruct (body_st 0 p) as [st|]; [|discriminate].
  exists st. split; [reflexivity|]. apply negb_true_iff, Nat.eqb_neq in H1. exact H1.
Qed.

Lemma body_st_from (st0 : nat) (p : string) (st : nat) :
  st0 <= 1 -> body_st 0 p = Some st -> st <> 2 ->
  exists st', body_st st0 p = Some st' /\ st' <> 2.
Proof.
  intros Hle H Hn. destruct p as [|c r].
  - exists st0. split; [reflexivity | lia].
  - exists st. split; [|exact Hn].
    destruct (Py.is_ws c) eqn:Hw.
    + destruct (body_st_ws 0 c r st Hw H) as [_ [H0 _]]. discriminate.
    + destruct (body_st_nonws 0 c r st Hw H) as [Hq H1].
      cbn. rewrite Hw, Hq. exact H1.
Qed.

Lemma concat_plus_cons2 (t q : string) (ps : list string) :
  String.concat "+" (t :: q :: ps) = t ++ String "+" (String.concat "+" (q :: ps)).
Proof. reflexivity. Qed.

Lemma concat_body (ps : list string) : forall (t : string) (st0 : nat),
  st0 <= 1 -> part_ok t = true -> Forall (fun p => part_ok p = true) ps ->
  exists st, body_st st0 (String.concat "+" (t :: ps)) = Some st /\ st <> 2.
Proof.
  induction ps as [|q ps IH]; intros t st0 Hle Ht Hps.
  - destruct (part_ok_spec t Ht) as [[st [H Hn]] _].
    exact (body_st_from st0 t st Hle H Hn).
  - destruct (part_ok_spec t Ht) as [[st [H Hn]] _].
    destruct (body_st_from st0 t st Hle H Hn) as [st' [H' Hn']].
    inversion Hps as [|? ? Hq Hrest]; subst.
    rewrite concat_plus_cons2, body_st_app, H'. cbn.
    exact (IH q 1 (le_n 1) Hq Hrest).
Qed.

Lemma concat_good (t : string) (ps : list string) :
  t <> "" -> part_ok t = true -> Forall (fun p => part_ok p = true) ps ->
  good_body (String.concat "+" (t :: ps)).
Proof.
  intros Hne Ht Hps. split.
  - destruct ps as [|q ps]; [exact Hne|].
    rewrite concat_plus_cons2. destruct t; [congruence | discriminate].
  - exact (concat_body ps t 0 (Nat.le_0_l 1) Ht Hps).
Qed.

Lemma split_concat_plus (ps : list string) : forall (t : string),
  part_ok t = true -> Forall (fun p => part_ok p = true) ps ->
  Py.split_on "+" (String.concat "+" (t :: ps)) = t :: ps.
Proof.
  induction ps as [|q ps IH]; intros t Ht Hps.
  - destruct (part_ok_spec t Ht) as [_ Hp]. exact (split_on_none "+" t Hp).
  - destruct (part_ok_spec t Ht) as [_ Hp].
    inversion Hps as [|? ? Hq Hrest]; subst.
    rewrite concat_plus_cons2, split_on_app by exact Hp.
    now rewrite IH.
Qed.

Lemma part_ok_strip (p : string) : part_ok p = true -> Py.strip p = p.
Proof.
  intros H. destruct (part_ok_spec p H) as [[st [Hs Hn]] _]. exact (strip_body st p Hs Hn).
Qed.

Lemma map_strip_parts (ps : list string) :
  Forall (fun p => part_ok p = true) ps -> map Py.strip ps = ps.
Proof.
  induction 1 as [|p ps Hp _ IH]; [reflexivity|].
  cbn. now rewrite part_ok_strip, IH.
Qed.

(** The splitter reads a segment written from separator-free parts back
    as that tag and those elements. *)
Lemma segment_of_raw_concat (t : string) (ps : list string) :
  t <> "" -> part_ok t = true -> Forall (fun p => part_ok p = true) ps ->
  segment_of_raw (String.concat "+" (t :: ps)) = Some (mkSegment t ps).
Proof.
  intros Hne Ht Hps. unfold segment_of_raw.
  destruct (concat_good t ps Hne Ht Hps) as [Hne' [st [Hs Hn]]].
  rewrite (strip_body st _ Hs Hn).
  replace (Py.truthy (String.concat "+" (t :: ps))) with true.
  2:{ unfold Py.truthy. destruct (String.concat "+" (t :: ps)); [congruence | reflexivity]. }
  cbn [negb]. rewrite split_concat_plus by assumption.
  rewrite part_ok_strip, map_strip_parts by assumption.
  replace (Py.truthy t) with true.
  2:{ unfold Py.truthy. destruct t; [congruence | reflexivity]. }
  reflexivity.
Qed.

Lemma split_into_segments_join (P : list (list string)) :
  Forall parts_ok P ->
  split_into_segments (joinq "" (map (String.concat "+") P))
  = map (fun p => mkSegment (hd "" p) (tl p)) P.
Proof.
  intros HP. unfold split_into_segments.
  rewrite split_joinq.
  2:{ induction HP as [|p P Hp _ IH]; constructor; [|exact IH].
      destruct p as [|t ps]; [contradiction|]. destruct Hp as [? [? ?]].
      now apply concat_good. }
  rewrite fold_right_app. cbn [fold_right segment_of_raw Py.strip Py.lstrip Py.rstrip
                              Py.truthy String.eqb negb].
  induction HP as [|p P Hp _ IH]; [reflexivity|].
  destruct p as [|t ps]; [contradiction|]. destruct Hp as [? [? ?]].
  cbn [map fold_right]. rewrite segment_of_raw_concat by assumption.
  now rewrite IH.
Qed.

Lemma str_forallb_impl (p q : ascii -> bool) (s : string) :
  (forall c, p c = true -> q c = true) ->
  str_forallb p s = true -> str_forallb q s = true.
Proof.
  intros Hpq. induction s as [|c s IH]; cbn; [reflexivity|].
  intros H. apply andb_true_iff in H as [H1 H2]. now rewrite (Hpq c H1), IH.
Qed.

Lemma safe_body_st (s : string) : forall st,
  str_forallb safe_char s = true ->
  exists st', body_st st s = Some st' /\ (st' = st \/ st' = 1).
Proof.
  induction s as [|c s IH]; intros st H; cbn in H |- *.
  - exists st. auto.
  - apply andb_true_iff in H as [Hc H]. unfold safe_char in Hc.
    apply andb_true_iff in Hc as [Hc Hp]. apply andb_true_iff in Hc as [Hw Hq].
    apply negb_true_iff in Hw, Hq. rewrite Hw, Hq.
    destruct (IH 1 H) as [st' [H1 H2]]. exists st'. split; [exact H1|]. right. lia.
Qed.

(** Text made of safe characters is a valid element. *)
Lemma safe_part_ok (s : string) : str_forallb safe_char s = true -> part_ok s = true.
Proof.
  intros H. unfold part_ok.
  destruct (safe_body_st s 0 H) as [st' [-> Hst]].
  apply andb_true_iff. split.
  - apply negb_true_iff, Nat.eqb_neq. lia.
  - refine (str_forallb_impl safe_char _ s _ H).
    intros c Hc. unfold safe_char in Hc. now apply andb_true_iff in Hc as [_ Hc].
Qed.

Lemma digit_safe (c : ascii) : Py.is_digit c = true -> safe_char c = true.
Proof.
  destruct c as [[] [] [] [] [] [] [] []]; vm_compute;
    intros H; first [reflexivity | discriminate H].
Qed.

Lemma digits_safe (s : string) :
  str_forallb Py.is_digit s = true -> str_forallb safe_char s = true.
Proof. apply str_forallb_impl, digit_safe. Qed.

Lemma digit_char (k : nat) : k < 10 -> Py.is_digit (ascii_of_nat (48 + k)) = true.
Proof.
  intros H. do 10 (destruct k as [|k]; [reflexivity|]). lia.
Qed.

Lemma digits_rev_digits (fuel n : nat) : str_forallb Py.is_digit (Py.digits_rev fuel n) = true.
Proof.
  revert n. induction fuel as [|f IH]; intros n; [reflexivity|].
  cbn [Py.digits_rev].
  assert (Hd : str_forallb Py.is_digit (String (ascii_of_nat (48 + n mod 10)) "") = true).
  { cbn [str_forallb]. rewrite digit_char by (apply Nat.mod_upper_bound; lia). reflexivity. }
  destruct (n <? 10); [exact Hd|].
  rewrite str_forallb_app, IH. exact Hd.
Qed.

Lemma pad2_digits (n : nat) : str_forallb Py.is_digit (Py.pad2 n) = true.
Proof.
  unfold Py.pad2. destruct (n <? 10); [|apply digits_rev_digits].
  change ("0" ++ Py.str_nat n) with (String "0" (Py.str_nat n)).
  cbn [str_forallb]. unfold Py.str_nat. rewrite digits_rev_digits. reflexivity.
Qed.

Lemma fmt_YmdHMS_digits (t : datetime) : str_forallb Py.is_digit (fmt_YmdHMS t) = true.
Proof.
  unfold fmt_YmdHMS, fmt_Y, fmt_m, fmt_d, fmt_H, fmt_M, fmt_S.
  unfold Py.str_nat. rewrite !str_forallb_app, digits_rev_digits, !pad2_digits. reflexivity.
Qed.

End WireLemmas.

(* ------------------------------------------------------------------ *)
(** ** The descriptive encoder and the decoder on its output *)

Module EncoderLemmas.
Import Segment Parser Time Descriptive Vocab WireLemmas.

(** Adding a key with value '' changes no [get] with default ''. *)
Lemma get_app_empty (req : Py.dict) (k k' : string) :
  Py.get (app req [(k, "")]) k' "" = Py.get req k' "".
Proof.
  unfold Py.get. induction req as [|[k0 v0] req IH]; cbn.
  - destruct (String.eqb k' k); reflexivity.
  - destruct (String.eqb k' k0); [reflexivity | exact IH].
Qed.


Lemma xml_texts_ok_app_empty (req : Py.dict) (k : string) :
  xml_texts_ok (app req [(k, "")]) = xml_texts_ok req.
Proof. unfold xml_texts_ok, xml_header_texts, xml_item_texts. now rewrite !get_app_empty. Qed.

Lemma set_texts_true (cs : list (string * string)) :
  forallb (fun cv => xml_text_ok (snd cv)) cs = true ->
  set_texts cs = Ok (map (fun cv => (fst cv, Some (snd cv))) cs).
Proof.
  induction cs as [|[t v] r IH]; cbn [set_texts forallb map]; [reflexivity|].
  intros H. apply andb_true_iff in H as [H1 H2]. cbn [snd] in H1.
  rewrite H1, (IH H2). reflexivity.
Qed.


(** [generate_xml] builds its tree exactly when every text it assigns is
    XML compatible, and raises lxml's [ValueError] otherwise. *)
Lemma generate_xml_ok (req : Py.dict) :
  xml_texts_ok req = true ->
  generate_xml req
  = Ok {| doc_header := Some (map (fun cv => (fst cv, Some (snd cv))) (xml_header_texts req));
          doc_item := Some (map (fun cv => (fst cv, Some (snd cv))) (xml_item_texts req)) |}.
Proof.
  unfold xml_texts_ok. rewrite forallb_app. intros H. apply andb_true_iff in H as [H1 H2].
  unfold generate_xml. rewrite (set_texts_true _ H1), (set_texts_true _ H2). reflexivity.
Qed.




(** Past the XML generator, the encoder fails exactly on a failing
    timestamp parse, with the wrapped message. *)
Lemma encode_record_cases (req : Py.dict) :
  xml_texts_ok req = true ->
  match strptime_YmdHMS (Py.get req "created_date" "" ++ Py.get req "created_time" "") with
  | Ok ts => encode_record req = Ok (String.concat nl (map seg_txt (descr_parts req ts)))
  | Err e => encode_record req = Err (Exception ("Failed to convert XML to EDI: " ++ exn_str e))
  end.
Proof.
  intros Hx. unfold encode_record. rewrite (generate_xml_ok req Hx). cbn [bind].
  unfold convert_xml_to_edi, map_xml_to_codeco.
  cbn [xml_header_texts xml_item_texts map fst snd header_text item_text doc_header doc_item
       findtext assoc_child String.eqb Ascii.eqb Bool.eqb fmt].
  destruct (strptime_YmdHMS _) as [ts|e]; cbn [bind]; [|reflexivity].
  unfold descr_parts, seg_txt. cbn [map].
  destruct (Py.truthy (Py.get req "transporter" "")) eqn:Ht.
  all: unfold build_unb_segment, build_unh_segment, build_bgm_segment, build_dtm_segment,
         build_nad_segment, build_cod_segment, build_loc_segment, build_unt_segment,
         build_unz_segment, truthy_opt; cbn [fmt]; rewrite ?Ht.
  all: cbn [String.concat].
  all: repeat rewrite str_app_assoc.
  all: reflexivity.
Qed.

Lemma encode_record_shape (req : Py.dict) (ts : datetime) :
  xml_texts_ok req = true ->
  strptime_YmdHMS (Py.get req "created_date" "" ++ Py.get req "created_time" "") = Ok ts ->
  encode_record req = Ok (String.concat nl (map seg_txt (descr_parts req ts))).
Proof. intros Hx H. pose proof (encode_record_cases req Hx) as E. now rewrite H in E. Qed.

Lemma wf_record_xml (req : Py.dict) : wf_record req = true -> xml_texts_ok req = true.
Proof. unfold wf_record. intros H. apply andb_true_iff in H as [_ H]. exact H. Qed.





Lemma digit_not_colon (c : ascii) : Py.is_digit c = true -> negb (Py.ascii_eqb c ":") = true.
Proof.
  destruct c as [[] [] [] [] [] [] [] []]; vm_compute;
    intros H; first [reflexivity | discriminate H].
Qed.

Lemma split_dtm_value (X : string) :
  str_forallb Py.is_digit X = true -> Py.split_on ":" (X ++ ":204") = [X; "204"].
Proof.
  intros H. rewrite split_on_app.
  - reflexivity.
  - exact (str_forallb_impl _ _ X digit_not_colon H).
Qed.

Lemma step_dtm (data : ParsedMessage) (X : string) :
  Py.split_on ":" (X ++ ":204") = [X; "204"] ->
  parse_segment_step data (mkSegment "DTM" ["137:" ++ X ++ ":204"])
  = Ok (add_date data [("date_time_qualifier", "137"); ("date_time", X);
                       ("date_time_format", "204")]).
Proof.
  intros Hs. unfold parse_segment_step, parse_dtm_segment, get_composite, get_element, py_index.
  simpl. rewrite Hs. reflexivity.
Qed.

(** The decoder on the 11 descriptive-profile segments, for any field
    values. *)
Lemma parse_descr (y tr cl cn cs st X u1 u2 u3 : string) (b : bool) :
  Py.split_on ":" (X ++ ":204") = [X; "204"] ->
  exists pm,
  parse_segments (map (fun p => mkSegment (hd "" p) (tl p))
   [["UNB"; "UNOC:3"; "CIABJ31"; y; u1; u2; u3];
    ["UNH"; "1"; "CODECO:D:96A:UN:EANCOM"];
    ["BGM"; "393"; cn; "9"];
    ["DTM"; "137:" ++ X ++ ":204"];
    ["NAD"; "TO"; y];
    (if b then ["NAD"; "FR"; tr; ""; tr] else ["NAD"; "FR"; tr]);
    ["NAD"; "SH"; cl];
    ["LOC"; "87"; y];
    ["COD"; cn; cs; st];
    ["UNT"; "11"; "1"];
    ["UNZ"; "1"; u3]]) = Ok pm
  /\ Py.dict_get (container_details pm) "container_number" = Some cn
  /\ Py.dict_get (container_details pm) "container_size" = Some cs
  /\ Py.dict_get (container_details pm) "container_status" = Some st
  /\ map (fun p => (Py.dict_get p "party_qualifier", Py.dict_get p "party_identification"))
         (parties pm) = [(Some "TO", Some y); (Some "FR", Some tr); (Some "SH", Some cl)]
  /\ map (fun d => Py.dict_get d "date_time") (dates pm) = [Some X].
Proof.
  intros Hs.
  destruct b; (simpl; unfold parse_segments; simpl; rewrite (step_dtm _ X Hs); simpl;
               eexists; split; [reflexivity | repeat split]).
Qed.

Lemma concat_seg_txt (P : list (list string)) :
  String.concat nl (map seg_txt P) = joinq nl (map (String.concat "+") P).
Proof. unfold joinq, seg_txt. now rewrite map_map. Qed.

(** Decoding newline-separated segments written from separator-free
    parts yields the parse of those segments. *)
Lemma decode_join (p : list string) (P : list (list string)) :
  Forall parts_ok (p :: P) ->
  parse_edi_message (String.concat nl (map seg_txt (p :: P)))
  = parse_segments (map (fun q => mkSegment (hd "" q) (tl q)) (p :: P)).
Proof.
  intros HP. unfold parse_edi_message. rewrite concat_seg_txt.
  cbn [map]. rewrite normalize_join.
  2:{ change (Forall good_body (map (String.concat "+") (p :: P))).
      apply Forall_map. refine (Forall_impl _ _ HP).
      intros [|t ps] Hq; [contradiction|]. destruct Hq as [? [? ?]].
      now apply concat_good. }
  change (joinq "" (String.concat "+" p :: map (String.concat "+") P))
    with (joinq "" (map (String.concat "+") (p :: P))).
  rewrite split_into_segments_join by exact HP.
  reflexivity.
Qed.

Lemma wf_record_spec (req : Py.dict) :
  wf_record req = true ->
  part_ok (Py.get req "yardId" "") = true /\ part_ok (Py.get req "client" "") = true
  /\ part_ok (Py.get req "transporter" "") = true
  /\ part_ok (Py.get req "container_number" "") = true
  /\ part_ok (Py.get req "container_size" "") = true
  /\ part_ok (Py.get req "status" "") = true
  /\ str_forallb Py.is_digit (Py.get req "created_date" "") = true
  /\ str_forallb Py.is_digit (Py.get req "created_time" "") = true
  /\ exists ts, strptime_YmdHMS (Py.get req "created_date" "" ++ Py.get req "created_time" "")
                = Ok ts.
Proof.
  unfold wf_record. intros H.
  repeat match type of H with
         | (_ && _) = true => apply andb_true_iff in H as [H ?]
         end.
  destruct (strptime_YmdHMS _) as [ts|e] eqn:Hp; [|discriminate].
  repeat split; try assumption. now exists ts.
Qed.

Lemma fmt_pad_digits (a b : nat) :
  str_forallb safe_char (Py.pad2 a ++ Py.pad2 b) = true.
Proof. apply digits_safe. now rewrite str_forallb_app, !pad2_digits. Qed.

(** Every part of the descriptive segments of a well-formed record is
    separator-free. *)
Lemma descr_parts_ok (req : Py.dict) (ts : datetime) :
  wf_record req = true -> Forall parts_ok (descr_parts req ts).
Proof.
  intros H. apply wf_record_spec in H.
  destruct H as [Hy [Hcl [Htr [Hcn [Hcs [Hst [Hcd [Hct _]]]]]]]].
  assert (Hts : part_ok (fmt_YmdHMS ts) = true)
    by (apply safe_part_ok, digits_safe, fmt_YmdHMS_digits).
  assert (Hymd : part_ok (fmt_y ts ++ fmt_m ts ++ fmt_d ts) = true).
  { apply safe_part_ok. unfold fmt_y, fmt_m, fmt_d.
    rewrite str_forallb_app. rewrite (digits_safe _ (pad2_digits _)). apply fmt_pad_digits. }
  assert (HHM : part_ok (fmt_H ts ++ fmt_M ts) = true)
    by (apply safe_part_ok, fmt_pad_digits).
  assert (Hdtm : part_ok ("137:" ++ (Py.get req "created_date" "" ++ Py.get req "created_time" "")
                          ++ ":204") = true).
  { apply safe_part_ok. rewrite !str_forallb_app.
    rewrite (digits_safe _ Hcd), (digits_safe _ Hct). reflexivity. }
  unfold descr_parts. destruct (Py.truthy _);
  repeat first [ apply Forall_cons | apply Forall_nil | split | discriminate
               | assumption | reflexivity ].
Qed.

End EncoderLemmas.

(* ------------------------------------------------------------------ *)
(** ** Claims on the descriptive-profile encoder *)

Module DescriptiveProps.
Import Segment Parser Time Descriptive Vocab WireLemmas EncoderLemmas.

(** C1: for a well-formed record (separator-free fields, 8-digit created
    date and 6-digit created time that parse as a timestamp, values the
    XML generator writes free of control characters), the
    descriptive encoder succeeds and the decoder parses its output; the
    decoded container details hold the record's container number, size
    and status, the decoded parties are TO, FR and SH with the yard id,
    the transporter and the client as identifications, and the one
    decoded date has date_time equal to created date followed by created
    time. *)
Theorem round_trip_descriptive (req : Py.dict) :
  wf_record req = true ->
  exists txt pm,
    encode_record req = Ok txt
    /\ parse_edi_message txt = Ok pm
    /\ Py.dict_get (container_details pm) "container_number"
       = Some (Py.get req "container_number" "")
    /\ Py.dict_get (container_details pm) "container_size"
       = Some (Py.get req "container_size" "")
    /\ Py.dict_get (container_details pm) "container_status"
       = Some (Py.get req "status" "")
    /\ map (fun p => (Py.dict_get p "party_qualifier", Py.dict_get p "party_identification"))
           (parties pm)
       = [(Some "TO", Some (Py.get req "yardId" ""));
          (Some "FR", Some (Py.get req "transporter" ""));
          (Some "SH", Some (Py.get req "client" ""))]
    /\ map (fun d => Py.dict_get d "date_time") (dates pm)
       = [Some (Py.get req "created_date" "" ++ Py.get req "created_time" "")].
Proof.
  intros Hwf. pose proof (descr_parts_ok req) as Hok.
  apply wf_record_spec in Hwf as Hspec.
  destruct Hspec as [_ [_ [_ [_ [_ [_ [Hcd [Hct [ts Hts]]]]]]]]].
  specialize (Hok ts Hwf).
  exists (String.concat nl (map seg_txt (descr_parts req ts))).
  revert Hok. unfold descr_parts. intros Hok.
  rewrite (decode_join _ _ Hok).
  assert (Hs : Py.split_on ":" ((Py.get req "created_date" "" ++ Py.get req "created_time" "")
                                ++ ":204")
               = [Py.get req "created_date" "" ++ Py.get req "created_time" ""; "204"]).
  { apply split_dtm_value. now rewrite str_forallb_app, Hcd, Hct. }
  destruct (parse_descr (Py.get req "yardId" "") (Py.get req "transporter" "")
              (Py.get req "client" "") (Py.get req "container_number" "")
              (Py.get req "container_size" "") (Py.get req "status" "")
              (Py.get req "created_date" "" ++ Py.get req "created_time" "")
              (fmt_y ts ++ fmt_m ts ++ fmt_d ts) (fmt_H ts ++ fmt_M ts) (fmt_YmdHMS ts)
              (Py.truthy (Py.get req "transporter" "")) Hs)
    as [pm [Hpm Hprops]].
  exists pm. split; [exact (encode_record_shape req ts (wf_record_xml req Hwf) Hts)|].
  split; [exact Hpm | exact Hprops].
Qed.

Lemma round_trip_descriptive_witness :
  wf_record scenario_record = true
  /\ exists txt pm,
    encode_record scenario_record = Ok txt
    /\ parse_edi_message txt = Ok pm
    /\ Py.dict_get (container_details pm) "container_number" = Some "PCIU9507070"
    /\ Py.dict_get (container_details pm) "container_size" = Some "40"
    /\ Py.dict_get (container_details pm) "container_status" = Some "01"
    /\ map (fun p => (Py.dict_get p "party_qualifier", Py.dict_get p "party_identification"))
           (parties pm)
       = [(Some "TO", Some "419101"); (Some "FR", Some "PROPRE MOYEN");
          (Some "SH", Some "0001052069")]
    /\ map (fun d => Py.dict_get d "date_time") (dates pm) = [Some "20240425040011"].
Proof.
  split; [vm_compute; reflexivity|].
  apply (round_trip_descriptive scenario_record). vm_compute. reflexivity.
Defined.




End DescriptiveProps.

(* ------------------------------------------------------------------ *)
(** ** Further properties of the decoder's splitting *)

Module SplitProps.
Import Segment Parser Vocab WireLemmas.

Lemma split_on_nonempty (d : ascii) (s : string) : Py.split_on d s <> [].
Proof.
  destruct s as [|c r]; cbn; [discriminate|].
  destruct (Py.ascii_eqb c d); [discriminate|].
  destruct (Py.split_on d r); discriminate.
Qed.

Lemma split_on_app_sep (d : ascii) (a b : string) :
  Py.split_on d (a ++ String d b) = app (Py.split_on d a) (Py.split_on d b).
Proof.
  induction a as [|c r IH]; cbn.
  - now rewrite Ascii.eqb_refl.
  - destruct (Py.ascii_eqb c d); [now rewrite IH|].
    rewrite IH. destruct (Py.split_on d r) as [|h t] eqn:E.
    + exfalso. exact (split_on_nonempty d r E).
    + reflexivity.
Qed.

(** Splitting text joined at a segment terminator splits each side. *)
Theorem split_into_segments_app (a b : string) :
  split_into_segments (a ++ String "'" b)
  = app (split_into_segments a) (split_into_segments b).
Proof.
  unfold split_into_segments. rewrite split_on_app_sep, fold_right_app.
  generalize (Py.split_on "'" a) as l. induction l as [|x l IH]; [reflexivity|].
  cbn. rewrite IH. destruct (segment_of_raw x); reflexivity.
Qed.

Lemma split_on_forallb (P : ascii -> bool) (d : ascii) (s : string) :
  str_forallb P s = true ->
  Forall (fun x => str_forallb (fun c => P c && negb (Py.ascii_eqb c d)) x = true)
         (Py.split_on d s).
Proof.
  induction s as [|c r IH]; intros H; cbn in H |- *.
  - repeat constructor.
  - apply andb_true_iff in H as [Hc Hr]. specialize (IH Hr).
    destruct (Py.ascii_eqb c d) eqn:Hd.
    + constructor; [reflexivity | exact IH].
    + destruct (Py.split_on d r) as [|h t]; [repeat constructor; cbn; now rewrite Hc, Hd|].
      inversion IH as [|? ? Hh Ht]; subst.
      constructor; [|exact Ht]. cbn. now rewrite Hc, Hd, Hh.
Qed.

Lemma lstrip_forallb (P : ascii -> bool) (s : string) :
  str_forallb P s = true -> str_forallb P (Py.lstrip s) = true.
Proof.
  induction s as [|c r IH]; intros H; [reflexivity|].
  cbn in H |- *. destruct (Py.is_ws c); [|exact H].
  apply IH. now apply andb_true_iff in H as [_ H].
Qed.

Lemma rstrip_forallb (P : ascii -> bool) (s : string) :
  str_forallb P s = true -> str_forallb P (Py.rstrip s) = true.
Proof.
  induction s as [|c r IH]; intros H; [reflexivity|].
  cbn in H. apply andb_true_iff in H as [Hc Hr]. specialize (IH Hr).
  cbn. destruct (Py.rstrip r) as [|x y] eqn:E.
  - destruct (Py.is_ws c); cbn; [reflexivity | now rewrite Hc].
  - cbn [str_forallb] in IH |- *. now rewrite Hc, IH.
Qed.

Lemma strip_forallb (P : ascii -> bool) (s : string) :
  str_forallb P s = true -> str_forallb P (Py.strip s) = true.
Proof. intros H. apply rstrip_forallb, lstrip_forallb, H. Qed.

(** [rstrip] leaves a text that is empty or keeps the first character. *)
Lemma rstrip_head (c : ascii) (r : string) :
  Py.rstrip (String c r) = "" \/ exists t, Py.rstrip (String c r) = String c t.
Proof.
  cbn. destruct (Py.rstrip r); [destruct (Py.is_ws c); [left | right; eexists]|right; eexists];
    reflexivity.
Qed.

Lemma rstrip_idem (s : string) : Py.rstrip (Py.rstrip s) = Py.rstrip s.
Proof.
  induction s as [|c r IH]; [reflexivity|].
  cbn [Py.rstrip]. destruct (Py.rstrip r) as [|x y] eqn:E.
  - destruct (Py.is_ws c) eqn:Hw; [reflexivity|]. cbn. now rewrite Hw.
  - cbn [Py.rstrip] in IH |- *. rewrite IH. reflexivity.
Qed.

Lemma lstrip_no_lead (s : string) :
  Py.lstrip s = "" \/ exists c t, Py.lstrip s = String c t /\ Py.is_ws c = false.
Proof.
  induction s as [|c r IH]; [now left|].
  cbn. destruct (Py.is_ws c) eqn:Hw; [exact IH|]. right. eauto.
Qed.

(** [str.strip] is idempotent. *)
Lemma strip_idem (s : string) : Py.strip (Py.strip s) = Py.strip s.
Proof.
  unfold Py.strip. destruct (lstrip_no_lead s) as [E | [c [t [E Hw]]]]; rewrite E.
  - reflexivity.
  - destruct (rstrip_head c t) as [E2 | [u E2]]; rewrite E2.
    + reflexivity.
    + pose proof (rstrip_idem (String c t)) as I. rewrite E2 in I.
      cbn [Py.lstrip]. rewrite Hw. exact I.
Qed.

Lemma in_split_into_segments (content : string) (sg : EDIFACTSegment) :
  In sg (split_into_segments content) ->
  exists raw, In raw (Py.split_on "'" content) /\ segment_of_raw raw = Some sg.
Proof.
  unfold split_into_segments. generalize (Py.split_on "'" content) as l.
  induction l as [|x l IH]; cbn; [contradiction|].
  destruct (segment_of_raw x) as [sg'|] eqn:E.
  - intros [<- | H]; [exists x; auto|]. destruct (IH H) as [raw [? ?]]. exists raw; auto.
  - intros H. destruct (IH H) as [raw [? ?]]. exists raw; auto.
Qed.

Lemma segment_of_raw_shape (raw : string) (sg : EDIFACTSegment) :
  str_forallb (fun c => true && negb (Py.ascii_eqb c "'")) raw = true ->
  segment_of_raw raw = Some sg ->
  tag sg <> "" /\ Py.strip (tag sg) = tag sg
  /\ Forall (fun e => Py.strip e = e) (elements sg)
  /\ Forall (fun x => sep_free x = true) (tag sg :: elements sg).
Proof.
  intros Hq. unfold segment_of_raw.
  pose proof (strip_forallb _ raw Hq) as Hq'.
  destruct (negb (Py.truthy (Py.strip raw))); [discriminate|].
  pose proof (split_on_forallb _ "+" _ Hq') as Hp.
  destruct (Py.split_on "+" (Py.strip raw)) as [|p0 rest]; [discriminate|].
  destruct (Py.truthy (Py.strip p0)) eqn:Ht; [|discriminate].
  intros E. injection E as <-. cbn [tag elements].
  inversion Hp as [|? ? Hp0 Hrest]; subst.
  split; [|split; [|split]].
  - unfold Py.truthy in Ht. intros E. rewrite E in Ht. discriminate.
  - apply strip_idem.
  - apply Forall_map. apply Forall_forall. intros x _. apply strip_idem.
  - constructor.
    + unfold sep_free. refine (str_forallb_impl _ _ _ _ (strip_forallb _ _ Hp0)).
      intros c. cbn. auto.
    + apply Forall_map. refine (Forall_impl _ _ Hrest). intros x Hx.
      unfold sep_free. refine (str_forallb_impl _ _ _ _ (strip_forallb _ _ Hx)).
      intros c. cbn. auto.
Qed.

(** Every segment the splitter yields has a non-empty tag, a tag and
    elements without surrounding whitespace, and no segment terminator
    or element separator inside the tag or any element. *)
Theorem split_segments_shape (content : string) :
  Forall (fun sg => tag sg <> "" /\ Py.strip (tag sg) = tag sg
                    /\ Forall (fun e => Py.strip e = e) (elements sg)
                    /\ Forall (fun x => sep_free x = true) (tag sg :: elements sg))
         (split_into_segments content).
Proof.
  apply Forall_forall. intros sg Hin.
  destruct (in_split_into_segments content sg Hin) as [raw [Hraw Hs]].
  assert (Hall : str_forallb (fun _ => true) content = true).
  { clear. induction content; cbn; auto. }
  pose proof (split_on_forallb _ "'" content Hall) as Hq.
  rewrite Forall_forall in Hq.
  exact (segment_of_raw_shape raw sg (Hq raw Hraw) Hs).
Qed.

End SplitProps.

(* ------------------------------------------------------------------ *)
(** ** What the decoder collects from a segment list *)

Module CollectProps.
Import Segment Parser Vocab SegmentFacts.

Lemma dict_get_set (d : Py.dict) (k v k' : string) :
  Py.dict_get (Py.dict_set d k v) k' = if String.eqb k' k then Some v else Py.dict_get d k'.
Proof.
  induction d as [|[k0 v0] d IH]; cbn.
  - reflexivity.
  - destruct (String.eqb k k0) eqn:E; cbn.
    + apply String.eqb_eq in E. subst k0. destruct (String.eqb k' k); reflexivity.
    + rewrite IH. destruct (String.eqb k' k0) eqn:E'; [|reflexivity].
      apply String.eqb_eq in E'. subst k0.
      destruct (String.eqb k' k) eqn:E''; [|reflexivity].
      apply String.eqb_eq in E''. subst. now rewrite String.eqb_refl in E.
Qed.

(** Unfold one decoding step to its tag case; every case but the
    taken one has a false tag test. *)
Ltac step_cases H :=
  unfold parse_segment_step, parse_unb_segment, parse_unh_segment, parse_bgm_segment,
    parse_dtm_segment, parse_nad_segment, parse_cod_segment, parse_loc_segment,
    parse_mea_segment, parse_unt_segment, parse_unz_segment in H;
  rewrite ?get_element_nonneg, ?get_composite_nonneg in H by lia;
  cbn [bind] in H;
  repeat match type of H with
         | (if ?b then _ else _) = _ => let E := fresh "E" in destruct b eqn:E
         end;
  injection H as <-;
  repeat match goal with
         | E : String.eqb _ _ = true |- _ => apply String.eqb_eq in E; rewrite E; clear E
         end;
  repeat match goal with
         | E : String.eqb _ _ = false |- _ => rewrite ?E; clear E
         end;
  cbn; rewrite ?app_nil_r;
  first [ reflexivity
        | unfold comp, elem; destruct (Py.truthy (nth 0 (elements _) "")); reflexivity ].

Lemma step_parties (data d' : ParsedMessage) (seg : EDIFACTSegment) :
  parse_segment_step data seg = Ok d' ->
  parties d' = app (parties data)
    (if String.eqb (tag seg) "NAD"
     then [[("party_qualifier", elem seg 0); ("party_identification", elem seg 1);
            ("name_and_address", elem seg 3)]] else []).
Proof. intros H. step_cases H. Qed.

Lemma step_locations (data d' : ParsedMessage) (seg : EDIFACTSegment) :
  parse_segment_step data seg = Ok d' ->
  locations d' = app (locations data)
    (if String.eqb (tag seg) "LOC"
     then [[("location_qualifier", elem seg 0); ("location_identification", elem seg 1)]]
     else []).
Proof. intros H. step_cases H. Qed.

Lemma step_measurements (data d' : ParsedMessage) (seg : EDIFACTSegment) :
  parse_segment_step data seg = Ok d' ->
  measurements d' = app (measurements data)
    (if String.eqb (tag seg) "MEA"
     then [[("measurement_purpose_qualifier", elem seg 0); ("unit_of_measurement", elem seg 1);
            ("measurement_value", elem seg 2)]] else []).
Proof. intros H. step_cases H. Qed.

Lemma step_dates (data d' : ParsedMessage) (seg : EDIFACTSegment) :
  parse_segment_step data seg = Ok d' ->
  dates d' = app (dates data)
    (if String.eqb (tag seg) "DTM"
     then [[("date_time_qualifier", comp seg 0 0); ("date_time", comp seg 0 1);
            ("date_time_format", comp seg 0 2)]] else []).
Proof. intros H. step_cases H. Qed.

Lemma step_container (data d' : ParsedMessage) (seg : EDIFACTSegment) :
  parse_segment_step data seg = Ok d' ->
  container_details d' =
    if String.eqb (tag seg) "COD"
    then Py.dict_update (container_details data)
           [("container_number", elem seg 0); ("container_size", elem seg 1);
            ("container_status", elem seg 2)]
    else container_details data.
Proof. intros H. step_cases H. Qed.

Lemma step_header (data d' : ParsedMessage) (seg : EDIFACTSegment) :
  parse_segment_step data seg = Ok d' ->
  header d' =
    if String.eqb (tag seg) "BGM"
    then Py.dict_update (header data)
           [("document_name_code", elem seg 0); ("document_number", elem seg 1);
            ("message_function_code", elem seg 2)]
    else header data.
Proof. intros H. step_cases H. Qed.

Section Collect.
Import DecodeTotality.

(** A list field that each step extends by the entry of a segment with
    tag [T]. *)
Variable F : ParsedMessage -> list Py.dict.
Variable T : string.
Variable mk : EDIFACTSegment -> Py.dict.
Hypothesis Hstep : forall data d' seg, parse_segment_step data seg = Ok d' ->
  F d' = app (F data) (if String.eqb (tag seg) T then [mk seg] else []).

Lemma collect_fold (segs : list EDIFACTSegment) : forall data pm,
  parse_segments_from data segs = Ok pm -> F pm = app (F data) (map mk (with_tag T segs)).
Proof.
  induction segs as [|s rest IH]; intros data pm H.
  - cbn in H. injection H as <-. cbn. now rewrite app_nil_r.
  - cbn [parse_segments_from] in H.
    destruct (parse_segment_step_ok data s) as [d' Hd]. rewrite Hd in H. cbn [bind] in H.
    rewrite (IH d' pm H), (Hstep data d' s Hd).
    unfold with_tag. cbn [filter]. destruct (String.eqb (tag s) T); cbn.
    + now rewrite <- app_assoc.
    + now rewrite app_nil_r.
Qed.

End Collect.

Section LastWins.
Import DecodeTotality.

(** A dictionary field whose key [k] each step with tag [T] sets. *)
Variable G : ParsedMessage -> Py.dict.
Variable T k : string.
Variable v : EDIFACTSegment -> string.
Hypothesis Hstep : forall data d' seg, parse_segment_step data seg = Ok d' ->
  Py.dict_get (G d') k
  = if String.eqb (tag seg) T then Some (v seg) else Py.dict_get (G data) k.

Lemma fold_some (l : list EDIFACTSegment) (x : EDIFACTSegment) :
  exists y, fold_left (fun _ sg => Some sg) l (Some x) = Some y.
Proof.
  revert x. induction l as [|z l IH]; intros x; [now exists x|]. cbn. apply IH.
Qed.

Lemma last_wins_fold (segs : list EDIFACTSegment) : forall data acc pm,
  match acc with Some sg => Py.dict_get (G data) k = Some (v sg) | None => True end ->
  parse_segments_from data segs = Ok pm ->
  Py.dict_get (G pm) k
  = match fold_left (fun _ sg => Some sg) (with_tag T segs) acc with
    | Some sg => Some (v sg)
    | None => Py.dict_get (G data) k
    end.
Proof.
  induction segs as [|s rest IH]; intros data acc pm Hacc H.
  - cbn in H. injection H as <-. cbn. destruct acc; [exact Hacc | reflexivity].
  - cbn [parse_segments_from] in H.
    destruct (parse_segment_step_ok data s) as [d' Hd]. rewrite Hd in H. cbn [bind] in H.
    pose proof (Hstep data d' s Hd) as Hs.
    unfold with_tag. cbn [filter]. fold (with_tag T rest).
    destruct (String.eqb (tag s) T).
    + cbn [fold_left]. rewrite (IH d' (Some s) pm Hs H).
      destruct (fold_some (with_tag T rest) s) as [y Hy]. now rewrite Hy.
    + rewrite (IH d' acc pm);
        [| destruct acc; [rewrite Hs; exact Hacc | exact I] | exact H].
      destruct (fold_left _ _ acc); [reflexivity | exact Hs].
Qed.

End LastWins.

Lemma dict_update3 (d : Py.dict) (k1 k2 k3 a b c k : string) :
  Py.dict_get (Py.dict_update d [(k1, a); (k2, b); (k3, c)]) k
  = if String.eqb k k3 then Some c else if String.eqb k k2 then Some b
    else if String.eqb k k1 then Some a else Py.dict_get d k.
Proof. unfold Py.dict_update. cbn [fold_left fst snd]. now rewrite !dict_get_set. Qed.

(** The lists a decoded message holds follow the segments: one party per
    NAD segment, one location per LOC, one measurement per MEA and one
    date per DTM, in segment order, each built from that segment's
    elements (or components), with '' for absent ones. *)
Theorem decoded_lists_follow_segments (s : string) (pm : ParsedMessage) :
  parse_edi_message s = Ok pm ->
  let segs := split_into_segments (normalize_edi_content s) in
  parties pm = map (fun sg => [("party_qualifier", elem sg 0);
                               ("party_identification", elem sg 1);
                               ("name_and_address", elem sg 3)]) (with_tag "NAD" segs)
  /\ locations pm = map (fun sg => [("location_qualifier", elem sg 0);
                                    ("location_identification", elem sg 1)])
                        (with_tag "LOC" segs)
  /\ measurements pm = map (fun sg => [("measurement_purpose_qualifier", elem sg 0);
                                       ("unit_of_measurement", elem sg 1);
                                       ("measurement_value", elem sg 2)])
                           (with_tag "MEA" segs)
  /\ dates pm = map (fun sg => [("date_time_qualifier", comp sg 0 0);
                                ("date_time", comp sg 0 1);
                                ("date_time_format", comp sg 0 2)]) (with_tag "DTM" segs).
Proof.
  unfold parse_edi_message. intros H. cbv zeta.
  destruct (split_into_segments (normalize_edi_content s)) as [|sg rest]; [discriminate|].
  unfold parse_segments in H.
  split; [|split; [|split]].
  - exact (collect_fold parties "NAD" _ step_parties _ _ _ H).
  - exact (collect_fold locations "LOC" _ step_locations _ _ _ H).
  - exact (collect_fold measurements "MEA" _ step_measurements _ _ _ H).
  - exact (collect_fold dates "DTM" _ step_dates _ _ _ H).
Qed.

Lemma decoded_lists_follow_segments_witness :
  List.length (parties
    (match parse_edi_message loc_without_to_text with Ok pm => pm | Err _ => empty_data end))
  = 1.
Proof.
  destruct (parse_edi_message loc_without_to_text) as [pm|e] eqn:E; [|discriminate].
  destruct (decoded_lists_follow_segments loc_without_to_text pm E) as [Hp _].
  rewrite Hp. vm_compute. reflexivity.
Defined.

Lemma parse_edi_message_segments (s : string) (pm : ParsedMessage) :
  parse_edi_message s = Ok pm ->
  parse_segments (split_into_segments (normalize_edi_content s)) = Ok pm.
Proof.
  unfold parse_edi_message. cbv zeta.
  destruct (split_into_segments (normalize_edi_content s)); [discriminate | exact id].
Qed.

Lemma details_last_wins_segs (segs : list EDIFACTSegment) (pm : ParsedMessage) :
  parse_segments segs = Ok pm ->
  let from t i k := Py.dict_get (match t with "COD" => container_details pm
                                              | _ => header pm end) k
                    = option_map (fun sg => elem sg i) (last_with_tag t segs) in
  from "COD" 0 "container_number" /\ from "COD" 1 "container_size"
  /\ from "COD" 2 "container_status"
  /\ from "BGM" 0 "document_name_code" /\ from "BGM" 1 "document_number"
  /\ from "BGM" 2 "message_function_code".
Proof.
  intros H. cbv zeta. unfold parse_segments in H. unfold last_with_tag.
  repeat split;
    match goal with
    | |- Py.dict_get ?Gpm ?key = option_map (fun sg => elem sg ?i) (fold_left _ (with_tag ?t ?l) None) =>
        let Gf := match Gpm with container_details _ => constr:(container_details)
                               | header _ => constr:(header) end in
        rewrite (last_wins_fold Gf t key (fun sg => elem sg i)) with (segs := l) (data := empty_data) (acc := None) (pm := pm);
        [ destruct (fold_left _ _ None); reflexivity
        | intros data d' seg Hd;
          first [rewrite (step_container data d' seg Hd) | rewrite (step_header data d' seg Hd)];
          destruct (String.eqb (tag seg) t); [rewrite dict_update3; reflexivity | reflexivity]
        | exact I
        | exact H ]
    end.
Qed.

(** Container details and the header come from the last COD and the last
    BGM segment: each key holds that segment's element, and is absent
    when there is no such segment. *)
Theorem decoded_details_last_wins (s : string) (pm : ParsedMessage) :
  parse_edi_message s = Ok pm ->
  let segs := split_into_segments (normalize_edi_content s) in
  let from t i k := Py.dict_get (match t with "COD" => container_details pm
                                              | _ => header pm end) k
                    = option_map (fun sg => elem sg i) (last_with_tag t segs) in
  from "COD" 0 "container_number" /\ from "COD" 1 "container_size"
  /\ from "COD" 2 "container_status"
  /\ from "BGM" 0 "document_name_code" /\ from "BGM" 1 "document_number"
  /\ from "BGM" 2 "message_function_code".
Proof.
  intros H. exact (details_last_wins_segs _ pm (parse_edi_message_segments s pm H)).
Qed.

Lemma decoded_details_last_wins_witness :
  let txt := "COD+A+20+1'BGM+1+X+9'COD+B+40+4'" in
  match parse_edi_message txt with
  | Ok pm => Py.dict_get (container_details pm) "container_number" = Some "B"
  | Err _ => False
  end.
Proof.
  cbv zeta.
  destruct (parse_edi_message "COD+A+20+1'BGM+1+X+9'COD+B+40+4'") as [pm|e] eqn:E.
  - destruct (decoded_details_last_wins _ pm E) as [H _]. rewrite H. vm_compute. reflexivity.
  - vm_compute in E. discriminate.
Defined.

End CollectProps.

(* ------------------------------------------------------------------ *)
(** ** From decoded segments to the XML record *)

Module MapperProps.
Import Segment Parser Time Mapper Vocab SegmentFacts CollectProps.

Lemma find_party_map (q : string) (l : list EDIFACTSegment) :
  forall acc,
  fold_left (fun acc p => if String.eqb (Py.get p "party_qualifier" "") q then Some p else acc)
            (map nad_entry l) (option_map nad_entry acc)
  = option_map nad_entry
      (fold_left (fun acc sg => if String.eqb (elem sg 0) q then Some sg else acc) l acc).
Proof.
  induction l as [|a l IH]; intros acc; [reflexivity|].
  cbn [map fold_left].
  replace (Py.get (nad_entry a) "party_qualifier" "") with (elem a 0) by reflexivity.
  destruct (String.eqb (elem a 0) q); [exact (IH (Some a)) | exact (IH acc)].
Qed.

Lemma find_party_map0 (q : string) (l : list EDIFACTSegment) :
  fold_left (fun acc p => if String.eqb (Py.get p "party_qualifier" "") q then Some p else acc)
            (map nad_entry l) None
  = option_map nad_entry
      (fold_left (fun acc sg => if String.eqb (elem sg 0) q then Some sg else acc) l None).
Proof. exact (find_party_map q l None). Qed.

Lemma creation_datetime_map (l : list EDIFACTSegment) :
  creation_datetime (map dtm_entry l)
  = match find (fun sg => String.eqb (comp sg 0 0) "137") l with
    | Some sg => if 14 <=? String.length (comp sg 0 1)
                 then Some (substring 0 8 (comp sg 0 1), substring 8 6 (comp sg 0 1))
                 else None
    | None => None
    end.
Proof.
  induction l as [|a l IH]; [reflexivity|].
  cbn [map creation_datetime find].
  replace (Py.get (dtm_entry a) "date_time_qualifier" "") with (comp a 0 0) by reflexivity.
  replace (Py.get (dtm_entry a) "date_time" "") with (comp a 0 1) by reflexivity.
  destruct (String.eqb (comp a 0 0) "137"); [reflexivity | exact IH].
Qed.

Lemma location_87_map (l : list EDIFACTSegment) :
  location_87 (map loc_entry l)
  = option_map (fun sg => Some (elem sg 1))
               (find (fun sg => String.eqb (elem sg 0) "87") l).
Proof.
  induction l as [|a l IH]; [reflexivity|].
  cbn [map location_87 find].
  replace (Py.get (loc_entry a) "location_qualifier" "") with (elem a 0) by reflexivity.
  destruct (String.eqb (elem a 0) "87"); [reflexivity | exact IH].
Qed.

Lemma substring_truthy (x : string) (n m : nat) :
  0 < m -> n + m <= String.length x -> Py.truthy (substring n m x) = true.
Proof.
  revert n m. induction x as [|c x IH]; intros n m Hm Hl; cbn in Hl; [lia|].
  destruct n as [|n].
  - destruct m as [|m]; [lia|]. reflexivity.
  - cbn [substring]. apply IH; lia.
Qed.

Lemma record_from_segs (segs : list EDIFACTSegment) (pm : ParsedMessage) (clock : nat -> datetime) :
  parse_segments segs = Ok pm ->
  let m := map_edi_data_to_xml_structure pm clock in
  let cod i := match last_with_tag "COD" segs with Some sg => elem sg i | None => "" end in
  Py.get m "client" "" = match last_party "SH" segs with Some sg => elem sg 1 | None => "" end
  /\ Py.get m "transporter" "" = match last_party "FR" segs with Some sg => elem sg 3 | None => "" end
  /\ Py.get m "yardId" ""
     = match last_party "TO" segs with
       | None => ""
       | Some t => match first_loc_87 segs with
                   | Some l => if Py.truthy (elem l 1) then elem l 1 else elem t 1
                   | None => elem t 1
                   end
       end
  /\ Py.get m "container_number" "" = cod 0
  /\ Py.get m "container_size" "" = cod 1
  /\ Py.get m "status" "" = cod 2.
Proof.
  intros Hs. cbv zeta. unfold parse_segments in Hs.
  pose proof (collect_fold parties "NAD" nad_entry step_parties segs empty_data pm Hs) as Hp.
  pose proof (collect_fold locations "LOC" loc_entry step_locations segs empty_data pm Hs) as Hl.
  destruct (details_last_wins_segs segs pm Hs) as (Hn & Hz & Hst & _).
  cbn [parties locations empty_data app] in Hp, Hl.
  set (m := map_edi_data_to_xml_structure pm clock).
  assert (Ecl : Py.get m "client" ""
    = match find_party "SH" (parties pm) with
      | Some c => Py.get c "party_identification" "" | None => "" end) by reflexivity.
  assert (Etr : Py.get m "transporter" ""
    = match find_party "FR" (parties pm) with
      | Some c => Py.get c "name_and_address" "" | None => "" end) by reflexivity.
  assert (Eyd : Py.get m "yardId" ""
    = match find_party "TO" (parties pm) with
      | Some t => or_str (match location_87 (locations pm) with Some o => o | None => None end)
                         (Py.get t "party_identification" "")
      | None => "" end) by reflexivity.
  assert (Ecn : Py.get m "container_number" ""
    = Py.get (container_details pm) "container_number" "") by reflexivity.
  assert (Ecs : Py.get m "container_size" ""
    = Py.get (container_details pm) "container_size" "") by reflexivity.
  assert (Ecst : Py.get m "status" ""
    = Py.get (container_details pm) "container_status" "") by reflexivity.
  rewrite Ecl, Etr, Eyd, Ecn, Ecs, Ecst. clear Ecl Etr Eyd Ecn Ecs Ecst m.
  unfold find_party, last_party, first_loc_87.
  rewrite Hp, Hl, location_87_map, !find_party_map0.
  unfold Py.get at 4 5 6. rewrite Hn, Hz, Hst.
  repeat split.
  - destruct (fold_left _ (with_tag "NAD" segs) None); reflexivity.
  - destruct (fold_left _ (with_tag "NAD" segs) None); reflexivity.
  - destruct (fold_left _ (with_tag "NAD" segs) None); [|reflexivity].
    destruct (find _ (with_tag "LOC" segs)); reflexivity.
  - destruct (last_with_tag "COD" segs); reflexivity.
  - destruct (last_with_tag "COD" segs); reflexivity.
  - destruct (last_with_tag "COD" segs); reflexivity.
Qed.

(** The record that [convert_edi_to_xml] serialises takes its parties and
    container from the segments: the client is the identification of the
    last NAD+SH, the transporter the name of the last NAD+FR, the
    container fields the elements of the last COD ('' when absent); the
    yard is the first LOC+87 identification when that is non-empty and
    otherwise the last NAD+TO identification, and it is '' whenever there
    is no NAD+TO, whatever the locations. *)
Theorem converted_record_follows_segments (s : string) (pm : ParsedMessage) (clock : nat -> datetime) :
  parse_edi_message s = Ok pm ->
  let segs := split_into_segments (normalize_edi_content s) in
  let m := map_edi_data_to_xml_structure pm clock in
  let cod i := match last_with_tag "COD" segs with Some sg => elem sg i | None => "" end in
  Py.get m "client" "" = match last_party "SH" segs with Some sg => elem sg 1 | None => "" end
  /\ Py.get m "transporter" "" = match last_party "FR" segs with Some sg => elem sg 3 | None => "" end
  /\ Py.get m "yardId" ""
     = match last_party "TO" segs with
       | None => ""
       | Some t => match first_loc_87 segs with
                   | Some l => if Py.truthy (elem l 1) then elem l 1 else elem t 1
                   | None => elem t 1
                   end
       end
  /\ Py.get m "container_number" "" = cod 0
  /\ Py.get m "container_size" "" = cod 1
  /\ Py.get m "status" "" = cod 2.
Proof.
  intros H. exact (record_from_segs _ pm clock (parse_edi_message_segments s pm H)).
Qed.

Lemma converted_record_follows_segments_witness :
  match parse_edi_message loc_without_to_text with
  | Ok pm => Py.get (map_edi_data_to_xml_structure pm sample_clock) "yardId" "" = ""
  | Err _ => False
  end.
Proof.
  destruct (parse_edi_message loc_without_to_text) as [pm|e] eqn:E.
  - destruct (converted_record_follows_segments _ pm sample_clock E) as (_ & _ & Hy & _).
    rewrite Hy. vm_compute. reflexivity.
  - vm_compute in E. discriminate.
Defined.

Lemma dates_from_segs (segs : list EDIFACTSegment) (pm : ParsedMessage)
    (clock : nat -> datetime) :
  parse_segments segs = Ok pm ->
  let m := map_edi_data_to_xml_structure pm clock in
  let ymd t := fmt_Y t ++ fmt_m t ++ fmt_d t in
  let hms t := fmt_H t ++ fmt_M t ++ fmt_S t in
  match full_dtm_137 segs with
  | Some (d, t) =>
      Py.get m "created_date" "" = d /\ Py.get m "created_time" "" = t
      /\ Py.get m "changed_date" "" = d /\ Py.get m "changed_time" "" = t
  | None =>
      Py.get m "created_date" "" = ymd (clock 1) /\ Py.get m "created_time" "" = hms (clock 2)
      /\ Py.get m "changed_date" "" = ymd (clock 3) /\ Py.get m "changed_time" "" = hms (clock 4)
  end.
Proof.
  intros Hs. cbv zeta. unfold parse_segments in Hs.
  pose proof (collect_fold dates "DTM" dtm_entry step_dates segs empty_data pm Hs) as Hd.
  cbn [dates empty_data app] in Hd.
  set (m := map_edi_data_to_xml_structure pm clock).
  set (ymd := fun t => fmt_Y t ++ fmt_m t ++ fmt_d t).
  set (hms := fun t => fmt_H t ++ fmt_M t ++ fmt_S t).
  set (cr := creation_datetime (dates pm)).
  set (c1 := or_now (option_map fst cr) ymd clock 1).
  set (c2 := or_now (option_map snd cr) hms clock (snd c1)).
  set (c3 := or_now (option_map fst cr) ymd clock (snd c2)).
  set (c4 := or_now (option_map snd cr) hms clock (snd c3)).
  assert (E1 : Py.get m "created_date" "" = fst c1) by reflexivity.
  assert (E2 : Py.get m "created_time" "" = fst c2) by reflexivity.
  assert (E3 : Py.get m "changed_date" "" = fst c3) by reflexivity.
  assert (E4 : Py.get m "changed_time" "" = fst c4) by reflexivity.
  rewrite E1, E2, E3, E4. clear E1 E2 E3 E4 m.
  assert (Hcr : cr = full_dtm_137 segs).
  { unfold cr, full_dtm_137, first_dtm_137. rewrite Hd, creation_datetime_map. reflexivity. }
  unfold c4, c3, c2, c1. rewrite Hcr.
  destruct (full_dtm_137 segs) as [[d t]|] eqn:F.
  - unfold full_dtm_137 in F.
    destruct (first_dtm_137 segs) as [sg|]; [|discriminate].
    destruct (14 <=? String.length (comp sg 0 1)) eqn:L; [|discriminate].
    injection F as <- <-. apply Nat.leb_le in L.
    cbn [option_map fst snd or_now].
    rewrite (substring_truthy _ 0 8), (substring_truthy _ 8 6) by lia.
    repeat split.
  - cbn [option_map fst snd or_now]. repeat split.
Qed.

(** The creation and change date and time of the record come from the
    first DTM segment with qualifier 137 alone: when its value has at
    least 14 characters, its first 8 and next 6 characters, for the
    creation and the change fields alike, even when a later DTM+137
    would have a full value. Otherwise each of the four fields is read
    from its own call of [datetime.now()]: the second to the fifth call
    of the mapper, the first giving the weighbridge id. *)
Theorem converted_dates_follow_first_dtm137 (s : string) (pm : ParsedMessage)
    (clock : nat -> datetime) :
  parse_edi_message s = Ok pm ->
  let segs := split_into_segments (normalize_edi_content s) in
  let m := map_edi_data_to_xml_structure pm clock in
  let ymd t := fmt_Y t ++ fmt_m t ++ fmt_d t in
  let hms t := fmt_H t ++ fmt_M t ++ fmt_S t in
  match full_dtm_137 segs with
  | Some (d, t) =>
      Py.get m "created_date" "" = d /\ Py.get m "created_time" "" = t
      /\ Py.get m "changed_date" "" = d /\ Py.get m "changed_time" "" = t
  | None =>
      Py.get m "created_date" "" = ymd (clock 1) /\ Py.get m "created_time" "" = hms (clock 2)
      /\ Py.get m "changed_date" "" = ymd (clock 3) /\ Py.get m "changed_time" "" = hms (clock 4)
  end.
Proof.
  intros H. exact (dates_from_segs _ pm clock (parse_edi_message_segments s pm H)).
Qed.

Lemma converted_dates_follow_first_dtm137_witness :
  let txt := "BGM+34+D1+9'DTM+137:2024:203'DTM+137:20240425040011:203'" in
  match parse_edi_message txt with
  | Ok pm =>
      let m := map_edi_data_to_xml_structure pm midnight_clock in
      Py.get m "created_date" "" = "20260205" /\ Py.get m "created_time" "" = "235959"
      /\ Py.get m "changed_date" "" = "20260206" /\ Py.get m "changed_time" "" = "000000"
  | Err _ => False
  end.
Proof.
  cbv zeta.
  destruct (parse_edi_message "BGM+34+D1+9'DTM+137:2024:203'DTM+137:20240425040011:203'")
    as [pm|e] eqn:E.
  - pose proof (converted_dates_follow_first_dtm137 _ pm midnight_clock E) as H.
    cbv zeta in H.
    assert (F : full_dtm_137 (split_into_segments (normalize_edi_content
                  "BGM+34+D1+9'DTM+137:2024:203'DTM+137:20240425040011:203'")) = None)
      by (vm_compute; reflexivity).
    rewrite F in H. destruct H as (H1 & H2 & H3 & H4).
    rewrite H1, H2, H3, H4. vm_compute. repeat split.
  - vm_compute in E. discriminate.
Defined.

End MapperProps.

(* ------------------------------------------------------------------ *)
(** ** EDI to XML and back *)

Module RoundTripProps.
Import Segment Parser Time Descriptive Mapper EdiToXml Vocab WireLemmas EncoderLemmas
       DecodeTotality CollectProps MapperProps.








End RoundTripProps.

(* ------------------------------------------------------------------ *)
(** ** Transmission format and validation of the encoder output *)

Module StripProps.
Import Segment Parser Time Descriptive Vocab WireLemmas EncoderLemmas DecodeTotality.

Lemma substring_all (s : string) (n : nat) :
  String.length s <= n -> substring 0 n s = s.
Proof.
  revert n. induction s as [|c s IH]; intros n H; cbn in H.
  - destruct n; reflexivity.
  - destruct n as [|n]; [lia|]. cbn. rewrite IH by lia. reflexivity.
Qed.

Lemma replace_fuel_char (d : ascii) (n : nat) (s : string) :
  String.length s < n ->
  Py.replace_fuel n (String d "") "" s = drop_char d s.
Proof.
  revert s. induction n as [|n IH]; intros s H; [lia|].
  destruct s as [|c r]; [reflexivity|]. cbn in H.
  cbn [Py.replace_fuel drop_char String.prefix].
  unfold Py.ascii_eqb. destruct (ascii_dec d c) as [<-|Hne].
  - rewrite Ascii.eqb_refl. cbn [String.length substring append].
    rewrite substring_all by lia.
    replace (String.prefix "" r) with true by (destruct r; reflexivity).
    apply IH. lia.
  - replace (Ascii.eqb c d) with false
      by (symmetry; apply Ascii.eqb_neq; congruence).
    rewrite IH by lia. reflexivity.
Qed.


Lemma drop_char_idem (d : ascii) (s : string) : drop_char d (drop_char d s) = drop_char d s.
Proof.
  induction s as [|c s IH]; cbn; [reflexivity|].
  destruct (Py.ascii_eqb c d) eqn:E; cbn; [exact IH | now rewrite E, IH].
Qed.


Lemma drop_char_free (d : ascii) (s : string) :
  str_forallb (fun c => negb (Py.ascii_eqb c d)) (drop_char d s) = true.
Proof.
  induction s as [|c s IH]; cbn; [reflexivity|].
  destruct (Py.ascii_eqb c d) eqn:E; cbn; [exact IH | now rewrite E, IH].
Qed.

(** [str.replace('\n', '')] *)
Lemma strip_edi_formatting_drop (s : string) :
  strip_edi_formatting s = drop_char "010" s.
Proof. unfold strip_edi_formatting, Py.replace. apply replace_fuel_char. lia. Qed.



(** Whitespace normalisation leaves the bare concatenation of clean
    segments unchanged. *)
Lemma collapse_join0 (b : string) (bs : list string) :
  Forall good_body (b :: bs) -> collapse_ws false (joinq "" (b :: bs)) = joinq "" (b :: bs).
Proof.
  revert b. induction bs as [|b2 bs IH]; intros b Hall;
    inversion Hall as [|? ? Hb Hrest]; subst;
    destruct Hb as [Hne [st [Hst Hn]]].
  - rewrite !joinq_one.
    pose proof (collapse_body 0 st b "'" Hst) as E. cbn [Nat.eqb] in E. rewrite E.
    replace (st =? 2) with false by (symmetry; now apply Nat.eqb_neq).
    reflexivity.
  - rewrite !joinq_cons2.
    pose proof (collapse_body 0 st b ("'" ++ "" ++ joinq "" (b2 :: bs)) Hst) as E.
    cbn [Nat.eqb] in E. rewrite E.
    replace (st =? 2) with false by (symmetry; now apply Nat.eqb_neq).
    change (collapse_ws false ("'" ++ "" ++ joinq "" (b2 :: bs)))
      with (String "'" (collapse_ws false (joinq "" (b2 :: bs)))).
    rewrite IH by exact Hrest. reflexivity.
Qed.

Lemma squeeze_join0 (b : string) (bs : list string) :
  Forall good_body (b :: bs) ->
  squeeze_quotes false "" (joinq "" (b :: bs)) = joinq "" (b :: bs).
Proof.
  revert b. induction bs as [|b2 bs IH]; intros b Hall;
    inversion Hall as [|? ? Hb Hrest]; subst;
    destruct Hb as [Hne [st [Hst Hn]]].
  - rewrite !joinq_one. rewrite (squeeze_body0 st b "'" Hst Hn). reflexivity.
  - rewrite !joinq_cons2. rewrite (squeeze_body0 st b _ Hst Hn).
    inversion Hrest as [|? ? Hb2 _]; subst.
    destruct (good_joinq_head "" b2 bs Hb2) as [c [r [Hj [Hw Hq]]]].
    change (squeeze_quotes false "" ("'" ++ "" ++ joinq "" (b2 :: bs)))
      with (String "'" (squeeze_quotes true "" (joinq "" (b2 :: bs)))).
    rewrite Hj, squeeze_head by assumption. rewrite <- Hj, IH by exact Hrest.
    reflexivity.
Qed.

Lemma normalize_join0 (b : string) (bs : list string) :
  Forall good_body (b :: bs) ->
  normalize_edi_content (joinq "" (b :: bs)) = joinq "" (b :: bs).
Proof.
  intros Hall. unfold normalize_edi_content, Py.strip.
  inversion Hall as [|? ? Hb _]; subst.
  destruct (good_joinq_head "" b bs Hb) as [c [r [Hj [Hw _]]]].
  rewrite Hj, lstrip_head by exact Hw. rewrite <- Hj.
  destruct (joinq_last "" b bs) as [P HP].
  rewrite HP, rstrip_last by reflexivity. rewrite <- HP.
  rewrite collapse_join0 by exact Hall.
  now apply squeeze_join0.
Qed.

Lemma concat_seg_txt_sep (sep : string) (P : list (list string)) :
  String.concat sep (map seg_txt P) = joinq sep (map (String.concat "+") P).
Proof. unfold joinq, seg_txt. now rewrite map_map. Qed.

Lemma good_parts (P : list (list string)) :
  Forall parts_ok P -> Forall good_body (map (String.concat "+") P).
Proof.
  intros HP. apply Forall_map. refine (Forall_impl _ _ HP).
  intros [|t ps] Hq; [contradiction|]. destruct Hq as [? [? ?]].
  now apply concat_good.
Qed.

(** Decoding the bare concatenation of segments written from
    separator-free parts. *)
Lemma decode_join0 (p : list string) (P : list (list string)) :
  Forall parts_ok (p :: P) ->
  parse_edi_message (String.concat "" (map seg_txt (p :: P)))
  = parse_segments (map (fun q => mkSegment (hd "" q) (tl q)) (p :: P)).
Proof.
  intros HP. unfold parse_edi_message. rewrite concat_seg_txt_sep.
  pose proof (good_parts _ HP) as Hg. cbn [map] in Hg |- *.
  rewrite normalize_join0 by exact Hg.
  change (joinq "" (String.concat "+" p :: map (String.concat "+") P))
    with (joinq "" (map (String.concat "+") (p :: P))).
  rewrite split_into_segments_join by exact HP.
  reflexivity.
Qed.

Lemma prefix_app (s1 s2 t : string) :
  String.prefix s1 s2 = true -> String.prefix s1 (s2 ++ t) = true.
Proof.
  revert s2. induction s1 as [|a s1 IH]; intros s2 H; [destruct (s2 ++ t); reflexivity|].
  destruct s2 as [|b s2]; [discriminate|]. cbn in H |- *.
  destruct (ascii_dec a b); [exact (IH s2 H) | discriminate].
Qed.

Lemma contains_empty (s : string) : Py.contains "" s = true.
Proof. destruct s; reflexivity. Qed.

Lemma contains_prefix (sub s : string) : String.prefix sub s = true -> Py.contains sub s = true.
Proof.
  destruct s as [|c r]; intros H; cbn [Py.contains].
  - destruct sub; [reflexivity | discriminate].
  - now rewrite H.
Qed.

Lemma contains_app_l (sub a b : string) :
  Py.contains sub a = true -> Py.contains sub (a ++ b) = true.
Proof.
  induction a as [|c a IH]; intros H.
  - cbn in H. apply String.eqb_eq in H. subst sub. apply contains_empty.
  - cbn [Py.contains append] in H |- *. apply orb_true_iff in H as [H|H].
    + change (String c (a ++ b)) with (String c a ++ b). now rewrite prefix_app.
    + now rewrite IH, orb_true_r.
Qed.

Lemma contains_app_r (sub a b : string) :
  Py.contains sub b = true -> Py.contains sub (a ++ b) = true.
Proof.
  induction a as [|c a IH]; intros H; [exact H|].
  cbn [Py.contains append]. now rewrite IH, orb_true_r.
Qed.

Lemma contains_concat (sub sep x : string) (l : list string) :
  In x l -> Py.contains sub x = true -> Py.contains sub (String.concat sep l) = true.
Proof.
  induction l as [|y l IH]; intros Hin H; [destruct Hin|].
  destruct l as [|z l].
  - destruct Hin as [<-|[]]. exact H.
  - change (String.concat sep (y :: z :: l)) with (y ++ sep ++ String.concat sep (z :: l)).
    destruct Hin as [<-|Hin].
    + now apply contains_app_l.
    + apply contains_app_r, contains_app_r. exact (IH Hin H).
Qed.

Lemma strip_head_truthy (c : ascii) (r : string) :
  Py.is_ws c = false -> Py.truthy (Py.strip (String c r)) = true.
Proof.
  intros Hw. unfold Py.strip. rewrite lstrip_head by exact Hw.
  cbn [Py.rstrip]. destruct (Py.rstrip r); [rewrite Hw|]; reflexivity.
Qed.


(** [strip_edi_formatting] deletes exactly the line feeds: its result is
    its input with every newline character removed and all other
    characters kept in order, so it contains no newline and applying it
    twice is the same as applying it once. *)
Theorem strip_edi_formatting_removes_newlines (s : string) :
  strip_edi_formatting s = drop_char "010" s
  /\ str_forallb (fun c => negb (Py.ascii_eqb c "010")) (strip_edi_formatting s) = true
  /\ strip_edi_formatting (strip_edi_formatting s) = strip_edi_formatting s.
Proof.
  rewrite !strip_edi_formatting_drop. split; [reflexivity|]. split.
  - apply drop_char_free.
  - apply drop_char_idem.
Qed.



End StripProps.

(* ------------------------------------------------------------------ *)
(** ** The compact-profile generator *)

Module CompactExtra.
Import Segment Parser Time Compact Vocab WireLemmas DecodeTotality CollectProps StripProps.

Lemma prefix_self (a b : string) : String.prefix a (a ++ b) = true.
Proof.
  induction a as [|c a IH]; [destruct b; reflexivity|].
  cbn. destruct (ascii_dec c c); [exact IH | congruence].
Qed.

Lemma compact_head (data : Py.dict) (now : datetime) :
  exists r, generate_codeco_edi data now = String "U" r.
Proof. eexists. reflexivity. Qed.

Lemma collapse_lead (b : bool) (c : ascii) (r : string) :
  Py.is_ws c = false -> collapse_ws b (String c r) = String c (collapse_ws false r).
Proof. intros Hw. cbn. now rewrite Hw. Qed.

Lemma squeeze_lead (c : ascii) (r : string) :
  Py.is_ws c = false -> Py.ascii_eqb c "'" = false ->
  exists r', squeeze_quotes false "" (String c r) = String c r'.
Proof. intros Hw Hq. cbn. rewrite Hw, Hq. eexists. reflexivity. Qed.

Lemma strip_lead (c : ascii) (r : string) :
  Py.is_ws c = false -> exists r', Py.strip (String c r) = String c r'.
Proof.
  intros Hw. unfold Py.strip. rewrite lstrip_head by exact Hw.
  cbn [Py.rstrip]. destruct (Py.rstrip r); [rewrite Hw|]; eexists; reflexivity.
Qed.

Lemma normalize_lead (c : ascii) (r : string) :
  Py.is_ws c = false -> Py.ascii_eqb c "'" = false ->
  exists r', normalize_edi_content (String c r) = String c r'.
Proof.
  intros Hw Hq. unfold normalize_edi_content.
  destruct (strip_lead c r Hw) as [r1 ->]. rewrite collapse_lead by exact Hw.
  exact (squeeze_lead _ _ Hw Hq).
Qed.

Lemma split_on_lead (d c : ascii) (r : string) :
  Py.ascii_eqb c d = false -> exists h t, Py.split_on d (String c r) = String c h :: t.
Proof.
  intros Hd. cbn. rewrite Hd.
  destruct (Py.split_on d r) as [|h t]; eexists _, _; reflexivity.
Qed.

Lemma segment_of_raw_lead (c : ascii) (r : string) :
  Py.is_ws c = false -> Py.ascii_eqb c "+" = false ->
  exists sg, segment_of_raw (String c r) = Some sg.
Proof.
  intros Hw Hp. unfold segment_of_raw.
  destruct (strip_lead c r Hw) as [r1 ->]. cbn [Py.truthy negb String.eqb].
  destruct (split_on_lead "+" c r1 Hp) as [h [t ->]].
  destruct (strip_lead c h Hw) as [h1 ->]. cbn. eexists. reflexivity.
Qed.

(** A text whose first character is not whitespace, a terminator or a
    separator has at least one segment. *)
Lemma split_into_segments_lead (c : ascii) (r : string) :
  Py.is_ws c = false -> Py.ascii_eqb c "'" = false -> Py.ascii_eqb c "+" = false ->
  split_into_segments (normalize_edi_content (String c r)) <> [].
Proof.
  intros Hw Hq Hp. destruct (normalize_lead c r Hw Hq) as [r1 ->].
  unfold split_into_segments. destruct (split_on_lead "'" c r1 Hq) as [h [t ->]].
  cbn [fold_right]. destruct (segment_of_raw_lead c h Hw Hp) as [sg ->]. discriminate.
Qed.

Lemma upper_char_idem (c : ascii) : Py.upper_char (Py.upper_char c) = Py.upper_char c.
Proof. destruct c as [[] [] [] [] [] [] [] []]; vm_compute; reflexivity. Qed.

Lemma lower_upper_char (c : ascii) : Py.lower_char (Py.upper_char c) = Py.lower_char c.
Proof. destruct c as [[] [] [] [] [] [] [] []]; vm_compute; reflexivity. Qed.

Lemma lower_char_idem (c : ascii) : Py.lower_char (Py.lower_char c) = Py.lower_char c.
Proof. destruct c as [[] [] [] [] [] [] [] []]; vm_compute; reflexivity. Qed.

Lemma upper_lower_char (c : ascii) : Py.upper_char (Py.lower_char c) = Py.upper_char c.
Proof. destruct c as [[] [] [] [] [] [] [] []]; vm_compute; reflexivity. Qed.

Lemma map_chars_comp (f g : ascii -> ascii) (s : string) :
  Py.map_chars f (Py.map_chars g s) = Py.map_chars (fun c => f (g c)) s.
Proof. induction s as [|c s IH]; cbn; [reflexivity | now rewrite IH]. Qed.

Lemma map_chars_ext (f g : ascii -> ascii) (s : string) :
  (forall c, f c = g c) -> Py.map_chars f s = Py.map_chars g s.
Proof. intros H. induction s as [|c s IH]; cbn; [reflexivity | now rewrite H, IH]. Qed.

Lemma case_folds (s : string) :
  Py.upper (Py.upper s) = Py.upper s /\ Py.lower (Py.upper s) = Py.lower s
  /\ Py.upper (Py.lower s) = Py.upper s /\ Py.lower (Py.lower s) = Py.lower s.
Proof.
  unfold Py.upper, Py.lower. rewrite !map_chars_comp.
  repeat split; apply map_chars_ext; intros c.
  - apply upper_char_idem.
  - apply lower_upper_char.
  - apply upper_lower_char.
  - apply lower_char_idem.
Qed.

Lemma get_set_same (d : Py.dict) (k v dflt : string) :
  Py.get (Py.dict_set d k v) k dflt = v.
Proof. unfold Py.get. now rewrite dict_get_set, String.eqb_refl. Qed.

Lemma get_set_other (d : Py.dict) (k k' v dflt : string) :
  k' <> k -> Py.get (Py.dict_set d k v) k' dflt = Py.get d k' dflt.
Proof.
  intros Hne. unfold Py.get. rewrite dict_get_set.
  replace (String.eqb k' k) with false by (symmetry; now apply String.eqb_neq).
  reflexivity.
Qed.

Theorem compact_envelope_consistent (data : Py.dict) (now : datetime) :
 let segs := generate_codeco_segments data now in
 let msg_ref := "COD" ++ fmt_m now ++ fmt_d now ++ fmt_H now ++ fmt_M now in
 let control_ref := Py.get data "sender" (Py.get data "company_code" "MANTRA") ++ fmt_m now ++ fmt_d now in
 List.length segs = 13 + (if Py.truthy (Py.get data "booking_reference" "") then 1 else 0)
                       + (if Py.truthy (Py.get data "equipment_reference" "")
                             && Py.contains "ONEY" (Py.upper (Py.get data "customer" "")) then 1 else 0)
 /\ nth 1 segs "" = "UNH+" ++ msg_ref ++ "+CODECO:D:95B:UN:ITG14'"
 /\ nth (List.length segs - 2) segs "" = "UNT+" ++ Py.str_nat (List.length segs - 2) ++ "+" ++ msg_ref ++ "'"
 /\ nth (List.length segs - 1) segs "" = "UNZ+1+" ++ control_ref ++ "'"
 /\ exists p, nth 0 segs "" = p ++ "+" ++ control_ref ++ "'".
Proof.
  cbv zeta. unfold generate_codeco_segments. cbv zeta.
  destruct (Py.truthy (Py.get data "booking_reference" "")),
    (Py.truthy (Py.get data "equipment_reference" "") && Py.contains "ONEY" (Py.upper (Py.get data "customer" "")));
  cbn [app List.length nth Nat.sub Nat.add]; (split; [reflexivity|]; split; [reflexivity|]; split; [reflexivity|]; split; [reflexivity|]).
  all: exists ("UNB+UNOA:1+" ++ Py.get data "sender" (Py.get data "company_code" "MANTRA") ++ "+"
              ++ Py.get data "receiver" (Py.get data "customer" "CLIENT") ++ "+"
              ++ (fmt_y now ++ fmt_m now ++ fmt_d now) ++ ":" ++ (fmt_H now ++ fmt_M now));
       rewrite !str_app_assoc; reflexivity.
Qed.


(** The compact generator's output always passes [validate_edi_format]
    with no error, whatever the input record. *)
Theorem compact_output_validates (data : Py.dict) (now : datetime) :
  validate_edi_format (generate_codeco_edi data now) = (true, []).
Proof.
  set (X := generate_codeco_edi data now).
  destruct (compact_head data now) as [r Hr]. fold X in Hr.
  assert (HT : Py.truthy X = true) by (rewrite Hr; reflexivity).
  assert (HS : Py.truthy (Py.strip X) = true)
    by (rewrite Hr; apply strip_head_truthy; reflexivity).
  assert (HP : exists pm, parse_edi_message X = Ok pm).
  { unfold parse_edi_message. cbv zeta.
    pose proof (split_into_segments_lead "U" r eq_refl eq_refl eq_refl) as Hne.
    rewrite <- Hr in Hne.
    destruct (split_into_segments (normalize_edi_content X)) as [|sg rest]; [congruence|].
    apply parse_segments_from_ok. }
  destruct HP as [pm Hp].
  assert (C : forall sub x, In x (generate_codeco_segments data now) ->
                            Py.contains sub x = true -> Py.contains sub X = true).
  { intros sub x Hin Hc. exact (contains_concat sub "" x _ Hin Hc). }
  unfold generate_codeco_segments in C. cbv zeta in C.
  assert (C1 : Py.contains "UNB+" X = true)
    by (eapply C; [left; reflexivity | apply contains_prefix; reflexivity]).
  assert (C2 : Py.contains "UNH+" X = true)
    by (eapply C; [right; left; reflexivity | apply contains_prefix; reflexivity]).
  assert (C5 : Py.contains "CODECO" X = true)
    by (eapply C; [right; left; reflexivity |
                   apply contains_app_r, contains_app_r; vm_compute; reflexivity]).
  assert (C3 : Py.contains "UNT+" X = true).
  { eapply C; [apply in_or_app; right; left; reflexivity|].
    apply contains_prefix, prefix_self. }
  assert (C4 : Py.contains "UNZ+" X = true).
  { eapply C; [apply in_or_app; right; right; left; reflexivity|].
    apply contains_prefix; reflexivity. }
  assert (C6 : Py.contains "'" X = true)
    by (eapply C; [right; right; right; left; reflexivity | reflexivity]).
  unfold validate_edi_format. rewrite HT, HS, C1, C2, C3, C4, C5, C6, Hp. reflexivity.
Qed.

(** An ASCII container type is matched without regard to case: giving
    it in upper or in lower case produces the same segments. *)
Theorem compact_container_type_case_insensitive (data : Py.dict) (now : datetime) :
  ascii_only (Py.get data "container_type" "EM") = true ->
  let ct := Py.get data "container_type" "EM" in
  generate_codeco_segments (Py.dict_set data "container_type" (Py.upper ct)) now
  = generate_codeco_segments data now
  /\ generate_codeco_segments (Py.dict_set data "container_type" (Py.lower ct)) now
     = generate_codeco_segments data now.
Proof.
  intros _. cbv zeta.
  destruct (case_folds (Py.get data "container_type" "EM")) as (U1 & L1 & U2 & L2).
  split; unfold generate_codeco_segments; cbv zeta;
    rewrite get_set_same; rewrite !get_set_other by discriminate.
  - now rewrite U1, L1.
  - now rewrite U2, L2.
Qed.

Lemma compact_container_type_case_insensitive_witness :
  let data := [("container_type", "Flat_Rack")] in
  ascii_only (Py.get data "container_type" "EM") = true
  /\ (let ct := Py.get data "container_type" "EM" in
      generate_codeco_segments (Py.dict_set data "container_type" (Py.upper ct)) sample_now
      = generate_codeco_segments data sample_now
      /\ generate_codeco_segments (Py.dict_set data "container_type" (Py.lower ct)) sample_now
         = generate_codeco_segments data sample_now).
Proof.
  cbv zeta. split; [reflexivity|].
  apply (compact_container_type_case_insensitive [("container_type", "Flat_Rack")] sample_now).
  reflexivity.
Defined.

End CompactExtra.

(* ------------------------------------------------------------------ *)
(** ** Measurement segments *)

Module MeaProps.
Import Segment Parser Descriptive Vocab WireLemmas DecodeTotality CollectProps StripProps.

Lemma build_mea_seg_txt (m : string * string * string) :
  (let '(t, v, u) := m in build_mea_segment t v u) = seg_txt (mea_parts m).
Proof.
  destruct m as [[t v] u]. unfold build_mea_segment, seg_txt, mea_parts.
  cbn [String.concat]. rewrite !str_app_assoc. reflexivity.
Qed.

Lemma with_tag_all (t : string) (segs : list EDIFACTSegment) :
  Forall (fun sg => tag sg = t) segs -> with_tag t segs = segs.
Proof.
  induction segs as [|sg segs IH]; intros H; [reflexivity|].
  inversion H as [|? ? Ht Hrest]; subst. unfold with_tag. cbn [filter].
  rewrite String.eqb_refl. fold (with_tag (tag sg) segs). now rewrite IH.
Qed.

(** Measurement segments written by [build_mea_segment] (type, unit,
    value) decode, in order, to measurements with that purpose
    qualifier, unit and value, when every part has no '+', no quote and
    no whitespace other than single spaces each between two
    non-whitespace characters. *)
Theorem mea_segments_round_trip (m : string * string * string)
    (ms : list (string * string * string)) :
  Forall (fun '(t, v, u) => part_ok t && part_ok v && part_ok u = true) (m :: ms) ->
  exists pm,
    parse_edi_message
      (String.concat "" (map (fun '(t, v, u) => build_mea_segment t v u) (m :: ms))) = Ok pm
    /\ measurements pm
       = map (fun '(t, v, u) => [("measurement_purpose_qualifier", t);
                                 ("unit_of_measurement", u); ("measurement_value", v)])
             (m :: ms).
Proof.
  intros Hok.
  assert (Ht : map (fun '(t, v, u) => build_mea_segment t v u) (m :: ms)
               = map seg_txt (map mea_parts (m :: ms))).
  { rewrite map_map. apply map_ext. intros x. apply build_mea_seg_txt. }
  assert (Hp : Forall parts_ok (map mea_parts (m :: ms))).
  { apply Forall_map. refine (Forall_impl _ _ Hok). intros [[t v] u] H.
    apply andb_true_iff in H as [H Hu]. apply andb_true_iff in H as [Ht' Hv].
    cbn. split; [discriminate|]. split; [reflexivity|].
    repeat constructor; assumption. }
  rewrite Ht. change (map mea_parts (m :: ms)) with (mea_parts m :: map mea_parts ms) in Hp |- *.
  rewrite (decode_join0 _ _ Hp).
  set (segs := map (fun q => mkSegment (hd "" q) (tl q))
                   (mea_parts m :: map mea_parts ms)).
  destruct (parse_segments_from_ok empty_data segs) as [pm Hpm].
  exists pm. split; [exact Hpm|].
  rewrite (collect_fold measurements "MEA" _ step_measurements segs empty_data pm Hpm).
  assert (Hsegs : segs = map (fun '(t, v, u) => mkSegment "MEA" [t; u; v]) (m :: ms)).
  { unfold segs. change (mea_parts m :: map mea_parts ms) with (map mea_parts (m :: ms)).
    rewrite map_map. apply map_ext. now intros [[t v] u]. }
  rewrite with_tag_all.
  - rewrite Hsegs, map_map. cbn [measurements empty_data app].
    apply map_ext. now intros [[t v] u].
  - rewrite Hsegs. apply Forall_map, Forall_forall. now intros [[t v] u] _.
Qed.

Lemma mea_segments_round_trip_witness :
  exists pm,
    parse_edi_message
      (String.concat "" (map (fun '(t, v, u) => build_mea_segment t v u)
                             [("7", "23500", "KGM"); ("8", "67", "MTQ")])) = Ok pm
    /\ measurements pm
       = [[("measurement_purpose_qualifier", "7"); ("unit_of_measurement", "KGM");
           ("measurement_value", "23500")];
          [("measurement_purpose_qualifier", "8"); ("unit_of_measurement", "MTQ");
           ("measurement_value", "67")]].
Proof.
  apply (mea_segments_round_trip ("7", "23500", "KGM") [("8", "67", "MTQ")]).
  repeat constructor.
Defined.

End MeaProps.

(** ** Normalisation of EDI content *)
Module NormProps.
Import Segment Parser Vocab WireLemmas SplitProps.

Lemma rstrip_cons_fixed (c : ascii) (r : string) :
  Py.rstrip (String c r) = String c r ->
  (r = "" /\ Py.is_ws c = false) \/ (r <> "" /\ Py.rstrip r = r).
Proof.
  cbn [Py.rstrip]. destruct (Py.rstrip r) as [|a t] eqn:E.
  - destruct (Py.is_ws c) eqn:Hw; intros H; [discriminate|].
    injection H as <-. now left.
  - intros H. injection H as H. subst r. right. split; [discriminate | reflexivity].
Qed.

Lemma col_st_nonws (c : ascii) (st : nat) (y : string) :
  Py.is_ws c = false -> col_st st (String c y) = col_st 1 y.
Proof. intros Hw. cbn [col_st]. now rewrite Hw. Qed.

Lemma col_st_space (y : string) : col_st 1 (String " " y) = col_st 2 y.
Proof. reflexivity. Qed.

(** The whitespace collapse of a text that does not end in whitespace
    ends outside a whitespace run, with single spaces only. *)
Lemma collapse_col (x : string) : forall b : bool,
  x <> "" -> Py.rstrip x = x ->
  exists f : nat, col_st (if b then 2 else 1) (collapse_ws b x) = Some f /\ f <> 2.
Proof.
  induction x as [|c r IH]; intros b Hne Hr; [congruence|].
  destruct (rstrip_cons_fixed c r Hr) as [[-> Hw] | [Hne' Hr']].
  - exists 1. cbn [collapse_ws]. rewrite Hw. rewrite col_st_nonws by exact Hw.
    split; [reflexivity | lia].
  - destruct (Py.is_ws c) eqn:Hw.
    + destruct b; cbn [collapse_ws]; rewrite Hw.
      * exact (IH true Hne' Hr').
      * rewrite col_st_space. exact (IH true Hne' Hr').
    + cbn [collapse_ws]. rewrite Hw, col_st_nonws by exact Hw.
      exact (IH false Hne' Hr').
Qed.

Lemma collapse_strip (s : string) :
  exists f : nat, col_st 0 (collapse_ws false (Py.strip s)) = Some f /\ f <> 2.
Proof.
  unfold Py.strip. destruct (lstrip_no_lead s) as [E | [c [t [E Hw]]]]; rewrite E.
  - exists 0. split; [reflexivity | lia].
  - destruct (rstrip_head c t) as [E2 | [u E2]]; rewrite E2.
    + exists 0. split; [reflexivity | lia].
    + pose proof (rstrip_idem (String c t)) as I. rewrite E2 in I.
      destruct (collapse_col (String c u) false ltac:(discriminate) I) as [f [Hf Hf2]].
      exists f. split; [|exact Hf2].
      cbn [collapse_ws] in Hf |- *. rewrite Hw in Hf |- *.
      rewrite col_st_nonws in Hf |- * by exact Hw. exact Hf.
Qed.

(** The states of the quote squeezer against those of the two scanners:
    the [col_st] state of its input, its own flag and buffer, and the
    [norm_st] state of what it has written. *)
Definition sq_config (st : nat) (aq : bool) (p : string) (ns : nat) : Prop :=
  (st = 0 /\ aq = false /\ p = "" /\ ns = 0) \/
  (st = 1 /\ aq = false /\ p = "" /\ ns = 1) \/
  (st = 1 /\ aq = true /\ p = "" /\ ns = 3) \/
  (st = 2 /\ aq = false /\ p = " " /\ ns = 1) \/
  (st = 2 /\ aq = true /\ p = "" /\ ns = 3).

Lemma squeeze_norm (x : string) : forall st f aq p ns,
  col_st st x = Some f -> f <> 2 -> sq_config st aq p ns ->
  exists f', norm_st ns (squeeze_quotes aq p x) = Some f' /\ f' <> 2.
Proof.
  induction x as [|c r IH]; intros st f aq p ns Hc Hf Hcfg.
  - cbn in Hc. injection Hc as <-.
    destruct Hcfg as [(->&->&->&->)|[(->&->&->&->)|[(->&->&->&->)|[(->&->&->&->)|(->&->&->&->)]]]];
      cbn; eexists; (split; [reflexivity | lia]) || lia.
  - cbn [col_st] in Hc. destruct (Py.is_ws c) eqn:Hw.
    + destruct (Py.ascii_eqb c " " && (st =? 1)) eqn:Hsp; [|discriminate].
      apply andb_true_iff in Hsp as [Hsp Hst]. apply Ascii.eqb_eq in Hsp as ->.
      apply Nat.eqb_eq in Hst as ->.
      destruct Hcfg as [(?&_)|[(_&->&->&->)|[(_&->&->&->)|[(?&_)|(?&_)]]]]; try lia.
      * cbn [squeeze_quotes]. rewrite Hw. cbn [append].
        apply (IH 2 f false " " 1 Hc Hf). unfold sq_config; tauto.
      * cbn [squeeze_quotes]. rewrite Hw.
        apply (IH 2 f true "" 3 Hc Hf). unfold sq_config; tauto.
    + cbn [squeeze_quotes]. rewrite Hw.
      destruct (Py.ascii_eqb c "'") eqn:Hq.
      * apply Ascii.eqb_eq in Hq as ->.
        destruct (IH 1 f true "" 3 Hc Hf) as [f' [H1 H2]]; [unfold sq_config; tauto|].
        exists f'. split; [|exact H2].
        destruct Hcfg as [(_&_&_&->)|[(_&_&_&->)|[(_&_&_&->)|[(_&_&_&->)|(_&_&_&->)]]]];
          exact H1.
      * destruct (IH 1 f false "" 1 Hc Hf) as [f' [H1 H2]]; [unfold sq_config; tauto|].
        exists f'. split; [|exact H2].
        assert (Hn : forall st', norm_st st' (String c (squeeze_quotes false "" r)) =
                                  norm_st 1 (squeeze_quotes false "" r))
          by (intros st'; cbn [norm_st]; now rewrite Hw, Hq).
        destruct Hcfg as [(_&_&->&->)|[(_&_&->&->)|[(_&_&->&->)|[(_&_&->&->)|(_&_&->&->)]]]];
          cbn [append]; rewrite ?Hn; try exact H1.
        change (norm_st 2 (String c (squeeze_quotes false "" r)) = Some f').
        rewrite Hn. exact H1.
Qed.

(** Normalised content is accepted by [norm_st] and does not end in a
    space. *)
Lemma normalize_norm (s : string) :
  exists f, norm_st 0 (normalize_edi_content s) = Some f /\ f <> 2.
Proof.
  destruct (collapse_strip s) as [f [Hc Hf]].
  apply (squeeze_norm _ 0 f false "" 0 Hc Hf). unfold sq_config; tauto.
Qed.

Lemma norm_rstrip (t : string) : forall st f,
  norm_st st t = Some f -> f <> 2 -> Py.rstrip t = t.
Proof.
  induction t as [|c r IH]; intros st f Hn Hf; [reflexivity|].
  cbn [Py.rstrip].
  assert (Hr : exists st', norm_st st' r = Some f /\ (Py.is_ws c = true -> st' = 2)).
  { cbn [norm_st] in Hn. destruct (Py.is_ws c).
    - destruct (Py.ascii_eqb c " " && (st =? 1)); [|discriminate]. eauto.
    - destruct (Py.ascii_eqb c "'"); [destruct (st =? 2); [discriminate|]|];
        (eexists; split; [exact Hn | discriminate]). }
  destruct Hr as [st' [Hr Hws]]. rewrite (IH st' f Hr Hf).
  destruct r as [|a r'].
  - cbn in Hr. injection Hr as <-.
    destruct (Py.is_ws c) eqn:Hw; [exfalso; apply Hf, Hws; reflexivity | reflexivity].
  - reflexivity.
Qed.

Lemma norm_strip (t : string) (f : nat) :
  norm_st 0 t = Some f -> f <> 2 -> Py.strip t = t.
Proof.
  intros Hn Hf. unfold Py.strip.
  assert (Hl : Py.lstrip t = t).
  { destruct t as [|c r]; [reflexivity|]. cbn [norm_st] in Hn. cbn [Py.lstrip].
    destruct (Py.is_ws c); [|reflexivity].
    rewrite andb_false_r in Hn. discriminate. }
  rewrite Hl. exact (norm_rstrip t 0 f Hn Hf).
Qed.

Lemma norm_collapse (t : string) : forall st f,
  norm_st st t = Some f -> collapse_ws (st =? 2) t = t.
Proof.
  induction t as [|c r IH]; intros st f Hn; [reflexivity|].
  cbn [norm_st] in Hn. cbn [collapse_ws]. destruct (Py.is_ws c) eqn:Hw.
  - destruct (Py.ascii_eqb c " " && (st =? 1)) eqn:Hsp; [|discriminate].
    apply andb_true_iff in Hsp as [Hsp Hst]. apply Ascii.eqb_eq in Hsp as ->.
    apply Nat.eqb_eq in Hst as ->. cbn [Nat.eqb].
    pose proof (IH 2 f Hn) as E. cbn [Nat.eqb] in E. now rewrite E.
  - destruct (Py.ascii_eqb c "'").
    + destruct (st =? 2); [discriminate|]. exact (f_equal (String c) (IH 3 f Hn)).
    + exact (f_equal (String c) (IH 1 f Hn)).
Qed.

Lemma norm_squeeze (t : string) : forall st f,
  norm_st st t = Some f -> squeeze_quotes (st =? 3) (pend st) t = pend st ++ t.
Proof.
  induction t as [|c r IH]; intros st f Hn.
  - cbn. symmetry. apply str_app_nil_r.
  - cbn [norm_st] in Hn. cbn [squeeze_quotes]. destruct (Py.is_ws c) eqn:Hw.
    + destruct (Py.ascii_eqb c " " && (st =? 1)) eqn:Hsp; [|discriminate].
      apply andb_true_iff in Hsp as [Hsp Hst]. apply Ascii.eqb_eq in Hsp as ->.
      apply Nat.eqb_eq in Hst as ->. exact (IH 2 f Hn).
    + destruct (Py.ascii_eqb c "'") eqn:Hq.
      * apply Ascii.eqb_eq in Hq as ->.
        destruct (st =? 2) eqn:E2; [discriminate|].
        pose proof (IH 3 f Hn) as E. cbn in E. rewrite E. unfold pend. now rewrite E2.
      * pose proof (IH 1 f Hn) as E. cbn in E. now rewrite E.
Qed.

Lemma norm_fixed (t : string) (f : nat) :
  norm_st 0 t = Some f -> f <> 2 -> normalize_edi_content t = t.
Proof.
  intros Hn Hf. unfold normalize_edi_content.
  rewrite (norm_strip t f Hn Hf).
  pose proof (norm_collapse t 0 f Hn) as C. cbn [Nat.eqb] in C. rewrite C.
  exact (norm_squeeze t 0 f Hn).
Qed.

(** [_normalize_edi_content] is idempotent: normalised content comes back
    unchanged, so [parse_edi_message] decodes content and its
    normalisation alike. *)
Theorem normalize_idempotent (s : string) :
  normalize_edi_content (normalize_edi_content s) = normalize_edi_content s /\
  parse_edi_message (normalize_edi_content s) = parse_edi_message s.
Proof.
  destruct (normalize_norm s) as [f [Hn Hf]].
  assert (E : normalize_edi_content (normalize_edi_content s) = normalize_edi_content s)
    by exact (norm_fixed _ f Hn Hf).
  split; [exact E|]. unfold parse_edi_message. now rewrite E.
Qed.

End NormProps.
